(** * korean_font_app.py: font resolution and the dashboard script

    A shallow embedding of [src/korean_font_app.py].  The script has one
    piece of decision logic, [setup_korean_font], which picks a Hangul
    capable font from a per-platform preference list, falls back to a
    bundled font file, and writes two keys of matplotlib's [rcParams].
    [main] then draws one of five matplotlib charts, a table, four metrics,
    two Plotly charts and a diagnostic expander.

    Python state is threaded explicitly: a run takes the process state
    (the [rcParams] dict and the [st.cache_resource] slot) and yields an
    outcome, the new state and the Streamlit elements it emitted. *)

From Stdlib Require Import ZArith QArith DecimalString.
From stdpp Require Import gmap strings list fin_maps.

Open Scope string_scope.
Open Scope list_scope.
Open Scope Z_scope.

(** ** Python values used by the script *)

Module Py.

(** [x in xs] on a list: a left-to-right scan with [==]. *)
Fixpoint list_contains (x : string) (xs : list string) : bool :=
  match xs with
  | [] => false
  | y :: ys => if String.eqb x y then true else list_contains x ys
  end.

(** [sub in s] on strings: [sub] occurs in [s] as a contiguous run. *)
Fixpoint str_contains (sub s : string) : bool :=
  if String.prefix sub s then true
  else match s with
       | EmptyString => false
       | String _ s' => str_contains sub s'
       end.

(** Truth value of [None] or a [str]: only a non-empty string is true. *)
Definition truthy (v : option string) : bool :=
  match v with
  | None => false
  | Some s => negb (String.eqb s "")
  end.

(** [str(v)] for [None] or a [str], as an f-string interpolates it. *)
Definition str (v : option string) : string :=
  match v with
  | None => "None"
  | Some s => s
  end.

(** The byte a character stands for; a [str] is kept as its UTF-8 bytes. *)
Definition byte (c : Ascii.ascii) : N := Ascii.N_of_ascii c.

(** Whitespace as [str.strip()] sees it, by UTF-8 encoding: the one-byte
    characters U+0009 to U+000D, U+001C to U+001F and U+0020; the
    two-byte U+0085 and U+00A0; the three-byte U+1680, U+2000 to U+200A,
    U+2028, U+2029, U+202F, U+205F and U+3000. *)
Definition is_space1 (a : Ascii.ascii) : bool :=
  ((9 <=? byte a) && (byte a <=? 13) || (28 <=? byte a) && (byte a <=? 32))%N.

Definition is_space2 (a b : Ascii.ascii) : bool :=
  ((byte a =? 194) && ((byte b =? 133) || (byte b =? 160)))%N.

Definition is_space3 (a b c : Ascii.ascii) : bool :=
  ((byte a =? 225) && (byte b =? 154) && (byte c =? 128)
   || (byte a =? 226) && (byte b =? 128)
      && ((128 <=? byte c) && (byte c <=? 138)
          || (byte c =? 168) || (byte c =? 169) || (byte c =? 175))
   || (byte a =? 226) && (byte b =? 129) && (byte c =? 159)
   || (byte a =? 227) && (byte b =? 128) && (byte c =? 128))%N.

(** Drop the whitespace characters a byte list starts with. *)
Fixpoint lstrip_bytes (l : list Ascii.ascii) : list Ascii.ascii :=
  match l with
  | [] => []
  | a :: l1 =>
      if is_space1 a then lstrip_bytes l1
      else match l1 with
           | [] => l
           | b :: l2 =>
               if is_space2 a b then lstrip_bytes l2
               else match l2 with
                    | [] => l
                    | c :: l3 =>
                        if is_space3 a b c then lstrip_bytes l3 else l
                    end
           end
  end.

(** The same from the end: the list is given last byte first, so the
    bytes of a character come in reverse. *)
Fixpoint rstrip_rev_bytes (l : list Ascii.ascii) : list Ascii.ascii :=
  match l with
  | [] => []
  | a :: l1 =>
      if is_space1 a then rstrip_rev_bytes l1
      else match l1 with
           | [] => l
           | b :: l2 =>
               if is_space2 b a then rstrip_rev_bytes l2
               else match l2 with
                    | [] => l
                    | c :: l3 =>
                        if is_space3 c b a then rstrip_rev_bytes l3 else l
                    end
           end
  end.

(** [s.strip()] *)
Definition strip (s : string) : string :=
  String.string_of_list_ascii
    (rev (rstrip_rev_bytes
            (rev (lstrip_bytes (String.list_ascii_of_string s))))).

(** [s.split(',')] *)
Fixpoint split_comma (s : string) : list string :=
  match s with
  | EmptyString => [EmptyString]
  | String c s' =>
      if (byte c =? 44)%N then EmptyString :: split_comma s'
      else match split_comma s' with
           | [] => [String c EmptyString]
           | part :: parts => String c part :: parts
           end
  end.

End Py.

(** ** matplotlib: rcParams and the font manager *)

(** A value held by an [rcParams] key.  [rcParams] is a dict whose
    assignments go through the validator of the key: ['font.family']
    always holds a list of family names, ['axes.unicode_minus'] a
    [bool]. *)
Inductive rcval : Type :=
| RcStr (s : string)
| RcBool (b : bool)
| RcList (l : list string).

(** An entry of [fm.fontManager.ttflist].  Several entries (regular, bold,
    ...) may carry the same family [name]. *)
Record FontEntry : Type := mkFontEntry {
  fname : string;
  name : string;
}.

(** What sits at a path where a font file is looked for. *)
Inductive FontFile : Type :=
| ValidFont (family_name : string)
| Unreadable
| Malformed.

(** The host the process runs on: what [platform.system()] reports, the
    font manager's list, and the font files reachable by relative path
    (a path with no entry is a missing file). *)
Record Host : Type := mkHost {
  platform_system : string;
  ttflist : list FontEntry;
  font_files : gmap string FontFile;
}.

(** [fm.FontProperties(fname=...)]: construction only records the path. *)
Record FontProperties : Type := mkFontProperties {
  fp_fname : string;
}.

(** ** Streamlit elements and figures *)

Inductive TextKind : Type :=
| Success | Warning | Error
| Title | Header | SidebarHeader | Markdown | Write.

(** Artists of a matplotlib figure.  Sizes, paddings, colours of text and
    similar cosmetic arguments are left out. *)
Inductive Artist : Type :=
| Bars (x : list string) (height : list Z) (color : list string)
| Line2D (x : list string) (y : list Z)
| Wedges (labels : list string) (x : list Z) (colors : list string)
| Heatmap (columns : list string)
| PathCollection (x : list Q) (y : list Z) (s : list Q)
| BarText (y : Z) (s : string)
| Annotation (s : string) (x : Q) (y : Z).

Record MplFigure : Type := mkMplFigure {
  artists : list Artist;
  ax_title : string;
  ax_xlabel : string;
  ax_ylabel : string;
}.

Inductive PlotlyTrace : Type :=
| PxBar (x : list string) (y : list Z)
| GoPie (labels : list string) (values : list Z) (hole : Q).

Record PlotlyFigure : Type := mkPlotlyFigure {
  trace : PlotlyTrace;
  layout_title : string;
  layout_font_family : string;
}.

(** Value of an [st.metric]: a formatted string, or a float shown with one
    decimal (kept as the exact rational; float formatting is not
    modelled). *)
Inductive MetricValue : Type :=
| MvText (s : string)
| MvFloat1 (q : Q) (suffix : string).

(** The table behind [pd.DataFrame(data)], column by column. *)
Record DataFrame : Type := mkDataFrame {
  col_region : list string;
  col_population : list Z;
  col_area : list Q;
  col_density : list Z;
}.

(** An element shown on the page.  [ElPyplot] keeps the [rcParams] in
    force when the figure is rendered: matplotlib text takes its font
    family from there. *)
Inductive Element : Type :=
| ElText (kind : TextKind) (body : string)
| ElSelectbox (label : string) (options : list string)
| ElPyplot (fig : MplFigure) (rc : gmap string rcval)
| ElPlotly (fig : PlotlyFigure)
| ElDataframe (df : DataFrame)
| ElMetric (label : string) (value : MetricValue).

(** ** Process state and the monad of a script run *)

(** [resource_cache] is the slot [st.cache_resource] keeps for the one
    function it decorates here: the cached return value together with the
    elements the function emitted, which are replayed on a hit. *)
Record Proc : Type := mkProc {
  rcParams : gmap string rcval;
  resource_cache : option (option string * list Element);
}.

Inductive outcome (A : Type) : Type :=
| Ret (a : A)
| Raise.
Arguments Ret {A} a.
Arguments Raise {A}.

Record Run (A : Type) : Type := mkRun {
  result : outcome A;
  final : Proc;
  emitted : list Element;
}.
Arguments mkRun {A} result final emitted.
Arguments result {A} r.
Arguments final {A} r.
Arguments emitted {A} r.

Definition M (A : Type) : Type := Proc -> Run A.

Definition ret {A} (a : A) : M A := fun s => mkRun (Ret a) s [].

Definition raise {A} : M A := fun s => mkRun Raise s [].

Definition bind {A B} (m : M A) (k : A -> M B) : M B :=
  fun s =>
    let r := m s in
    match result r with
    | Ret a =>
        let r' := k a (final r) in
        mkRun (result r') (final r') (emitted r ++ emitted r')
    | Raise => mkRun Raise (final r) (emitted r)
    end.

(** [try: m  except: h]: a bare [except] catches whatever [m] raises; the
    state changes and elements [m] produced before raising stay. *)
Definition try_except {A} (m : M A) (h : M A) : M A :=
  fun s =>
    let r := m s in
    match result r with
    | Ret a => r
    | Raise =>
        let r' := h (final r) in
        mkRun (result r') (final r') (emitted r ++ emitted r')
    end.

#[export] Instance M_ret : MRet M := @ret.
#[export] Instance M_bind : MBind M := fun A B k m => bind m k.

(** matplotlib's validator of ['font.family'] applied to a [str]: the
    string is split on commas, each part is stripped, and the parts that
    are left empty are dropped.  What [rcParams] keeps is this list. *)
Definition validate_stringlist (s : string) : list string :=
  List.filter (fun v => negb (String.eqb v ""))
    (map Py.strip (Py.split_comma s)).

(** [plt.rcParams['font.family'] = v] for a [str] [v]: the key is set to
    the validated list, not to the string. *)
Definition rc_set_font_family (v : string) : M unit :=
  fun s => mkRun (Ret tt)
             (mkProc (<["font.family" := RcList (validate_stringlist v)]>
                        (rcParams s))
                (resource_cache s)) [].

(** [plt.rcParams['axes.unicode_minus'] = b] for a [bool] [b], which the
    validator of that key keeps as it is. *)
Definition rc_set_unicode_minus (b : bool) : M unit :=
  fun s => mkRun (Ret tt)
             (mkProc (<["axes.unicode_minus" := RcBool b]> (rcParams s))
                (resource_cache s)) [].

(** [plt.rcParams[key]]: a missing key raises [KeyError]. *)
Definition rc_get (key : string) : M rcval :=
  fun s => match rcParams s !! key with
           | Some v => mkRun (Ret v) s []
           | None => mkRun Raise s []
           end.

Definition st_emit (e : Element) : M unit :=
  fun s => mkRun (Ret tt) s [e].

Definition st_success (body : string) : M unit := st_emit (ElText Success body).
Definition st_warning (body : string) : M unit := st_emit (ElText Warning body).
Definition st_error (body : string) : M unit := st_emit (ElText Error body).

(** [font_prop.get_name()]: opens the file and reads the family name from
    its metadata; a missing, unreadable or malformed file raises. *)
Definition get_name (host : Host) (font_prop : FontProperties) : M string :=
  match font_files host !! fp_fname font_prop with
  | Some (ValidFont family_name) => ret family_name
  | Some Unreadable => raise
  | Some Malformed => raise
  | None => raise
  end.

(** ** setup_korean_font *)

Definition windows_candidates : list string :=
  ["Malgun Gothic"; "Microsoft YaHei"; "SimHei"].
Definition macos_candidates : list string :=
  ["AppleGothic"; "Apple SD Gothic Neo"; "Noto Sans CJK KR"].
Definition linux_candidates : list string :=
  ["Noto Sans CJK KR"; "DejaVu Sans"; "Liberation Sans"].

(** Lines 27-35: the candidate list for what [platform.system()] says. *)
Definition font_candidates (system : string) : list string :=
  if String.eqb system "Windows" then windows_candidates
  else if String.eqb system "Darwin" then macos_candidates
  else linux_candidates.

(** Line 38. *)
Definition available_fonts (host : Host) : list string :=
  map name (ttflist host).

(** Lines 40-44: the loop with its [break]. *)
Fixpoint scan_candidates (available : list string) (candidates : list string)
    (selected_font : option string) : option string :=
  match candidates with
  | [] => selected_font
  | font :: rest =>
      if Py.list_contains font available then Some font
      else scan_candidates available rest selected_font
  end.

Definition font_path : string := "NotoSansKR-Regular.ttf".

(** Lines 51-64: the branch taken when no candidate was selected. *)
Definition load_bundled_font (host : Host) : M (option string) :=
  st_warning "⚠️ 적절한 한글 폰트를 찾을 수 없습니다. 기본 폰트를 사용합니다." ;;
  try_except
    (let font_prop := mkFontProperties font_path in
     family ← get_name host font_prop;
     rc_set_font_family family ;;
     rc_set_unicode_minus false ;;
     st_success "✅ 폰트 파일에서 한글 폰트 로드 완료" ;;
     returned ← get_name host font_prop;
     ret (Some returned))
    (st_error "❌ 한글 폰트 설정에 실패했습니다." ;;
     ret None).

(** The function body, lines 21-64 (without its decorator). *)
Definition setup_korean_font (host : Host) : M (option string) :=
  let system := platform_system host in
  let selected_font :=
    scan_candidates (available_fonts host) (font_candidates system) None in
  if Py.truthy selected_font then
    match selected_font with
    | Some font =>
        rc_set_font_family font ;;
        rc_set_unicode_minus false ;;
        st_success ("✅ 한글 폰트 설정 완료: " +:+ font) ;;
        ret (Some font)
    | None => load_bundled_font host
    end
  else load_bundled_font host.

(** [@st.cache_resource] around a function without arguments: the first
    call runs the body and stores what it returned and emitted; later
    calls return the stored value and replay the stored elements without
    running the body.  A body that raises stores nothing. *)
Definition cache_resource (body : M (option string)) : M (option string) :=
  fun s =>
    match resource_cache s with
    | Some (v, els) => mkRun (Ret v) s els
    | None =>
        let r := body s in
        match result r with
        | Ret v =>
            mkRun (Ret v)
              (mkProc (rcParams (final r)) (Some (v, emitted r)))
              (emitted r)
        | Raise => r
        end
    end.

(** The decorated function, as [main] calls it. *)
Definition cached_setup_korean_font (host : Host) : M (option string) :=
  cache_resource (setup_korean_font host).

(** ** Formatting and column helpers *)

Definition comma : Ascii.ascii := Ascii.ascii_of_nat 44.

(** Insert a comma after every third digit, the digits given least
    significant first. *)
Fixpoint group3 (rev_digits : list Ascii.ascii) : list Ascii.ascii :=
  match rev_digits with
  | a :: b :: c :: rest =>
      match rest with
      | [] => rev_digits
      | _ :: _ => a :: b :: c :: comma :: group3 rest
      end
  | _ => rev_digits
  end.

(** [f"{n:,}"] for an integer. *)
Definition format_comma (n : Z) : string :=
  let digits :=
    String.list_ascii_of_string
      (NilZero.string_of_uint (N.to_uint (Z.to_N (Z.abs n)))) in
  let grouped := String.string_of_list_ascii (rev (group3 (rev digits))) in
  if n <? 0 then "-" +:+ grouped else grouped.

(** [Series.sum()], [.max()], [.min()] of an integer column and [.mean()]
    of the area column.  The columns here are the eight fixed rows, far
    from the int64 range; [max] and [min] of an empty column (NaN in
    pandas) do not arise and are given as 0. *)
Definition series_sum (col : list Z) : Z := fold_left Z.add col 0.

Definition series_max (col : list Z) : Z :=
  match col with
  | [] => 0
  | x :: xs => fold_left Z.max xs x
  end.

Definition series_min (col : list Z) : Z :=
  match col with
  | [] => 0
  | x :: xs => fold_left Z.min xs x
  end.

Definition series_mean (col : list Q) : Q :=
  (fold_left Qplus col 0%Q / inject_Z (Z.of_nat (length col)))%Q.

(** [str(v)] of an [rcParams] value inside an f-string. *)
Definition rc_str (v : rcval) : string :=
  match v with
  | RcStr s => s
  | RcBool true => "True"
  | RcBool false => "False"
  | RcList l =>
      "[" +:+ String.concat ", " (map (fun x => "'" +:+ x +:+ "'") l) +:+ "]"
  end.

(** ** Streamlit calls *)

Definition st_title (body : string) : M unit := st_emit (ElText Title body).
Definition st_markdown (body : string) : M unit :=
  st_emit (ElText Markdown body).
Definition st_header (body : string) : M unit := st_emit (ElText Header body).
Definition st_sidebar_header (body : string) : M unit :=
  st_emit (ElText SidebarHeader body).
Definition st_write (body : string) : M unit := st_emit (ElText Write body).
Definition st_dataframe (df : DataFrame) : M unit := st_emit (ElDataframe df).
Definition st_metric (label : string) (value : MetricValue) : M unit :=
  st_emit (ElMetric label value).
Definition st_plotly_chart (fig : PlotlyFigure) : M unit :=
  st_emit (ElPlotly fig).

(** [st.pyplot(fig)] renders the figure under the [rcParams] of the
    moment.  Rendering is taken to find a font for the text: a run in
    which matplotlib finds neither a configured family nor its default
    font in the font manager's list raises at the chart, and such runs
    are outside this model. *)
Definition st_pyplot (fig : MplFigure) : M unit :=
  fun s => mkRun (Ret tt) s [ElPyplot fig (rcParams s)].

(** [st.sidebar.selectbox(label, options)]: shows the widget and returns
    the option the user picked, [choice] being its index.  The widget
    only offers the listed options; an index outside them counts as the
    first, which is also the widget's initial selection. *)
Definition st_sidebar_selectbox (label : string) (options : list string)
    (choice : nat) : M string :=
  st_emit (ElSelectbox label options) ;;
  ret (nth choice options (hd "" options)).

(** [for x in xs: body(x)] *)
Fixpoint for_each {A} (xs : list A) (body : A -> M unit) : M unit :=
  match xs with
  | [] => ret tt
  | x :: rest => body x ;; for_each rest body
  end.

(** ** main *)

Definition chart_options : list string :=
  ["막대 차트"; "선 그래프"; "파이 차트"; "히트맵"; "산점도"].

(** Lines 81-87. *)
Definition data : DataFrame :=
  mkDataFrame
    ["서울"; "부산"; "대구"; "인천"; "광주"; "대전"; "울산"; "세종"]
    [9720846; 3404423; 2401110; 2947217; 1441970; 1454679; 1124459; 365309]
    [605.21; 770.18; 883.56; 1040.82; 501.31; 539.98; 1061.4; 465.23]%Q
    [16154; 4419; 2716; 2831; 2876; 2694; 1059; 785].

Definition palette : list string :=
  ["#FF6B6B"; "#4ECDC4"; "#45B7D1"; "#96CEB4";
   "#FFEAA7"; "#DDA0DD"; "#98D8C8"; "#F7DC6F"].

Definition plotly_font_family : string :=
  "Malgun Gothic, AppleGothic, Noto Sans CJK KR".

(** Lines 95-110. *)
Definition bar_chart (df : DataFrame) : MplFigure :=
  mkMplFigure
    (Bars (col_region df) (col_population df) palette ::
     map (fun height => BarText (height + 50000) (format_comma height))
       (col_population df))
    "지역별 인구수" "지역" "인구수 (명)".

(** Lines 112-121. *)
Definition line_chart (df : DataFrame) : MplFigure :=
  mkMplFigure [Line2D (col_region df) (col_density df)]
    "지역별 인구밀도" "지역" "인구밀도 (명/㎢)".

(** Lines 123-138.  One wedge per value of the population column, each
    labelled with the region of the same row; the percentage texts of
    [autopct] are floats and are not modelled. *)
Definition pie_chart (df : DataFrame) : MplFigure :=
  mkMplFigure [Wedges (col_region df) (col_population df) palette]
    "지역별 인구 비율" "" "".

(** Lines 140-149.  The correlation matrix is floating point and is not
    computed; the figure records the columns it is taken over. *)
Definition heatmap_chart (df : DataFrame) : MplFigure :=
  mkMplFigure [Heatmap ["인구수"; "면적"; "인구밀도"]]
    "인구수, 면적, 인구밀도 상관관계" "" "".

(** Lines 151-166. *)
Definition scatter_chart (df : DataFrame) : MplFigure :=
  mkMplFigure
    (PathCollection (col_area df) (col_population df)
       (map (fun d => (inject_Z d / 30)%Q) (col_density df)) ::
     map (fun row => Annotation row.1 row.2.1 row.2.2)
       (combine (col_region df)
          (combine (col_area df) (col_population df))))
    "면적 vs 인구수 (버블 크기: 인구밀도)" "면적 (㎢)" "인구수 (명)".

(** Lines 92-166: the [with col1:] block. *)
Definition chart_area (chart_type : string) (df : DataFrame) : M unit :=
  st_header "📈 차트 영역" ;;
  if String.eqb chart_type "막대 차트" then st_pyplot (bar_chart df)
  else if String.eqb chart_type "선 그래프" then st_pyplot (line_chart df)
  else if String.eqb chart_type "파이 차트" then st_pyplot (pie_chart df)
  else if String.eqb chart_type "히트맵" then st_pyplot (heatmap_chart df)
  else if String.eqb chart_type "산점도" then st_pyplot (scatter_chart df)
  else ret tt.

(** Lines 168-186: the [with col2:] block. *)
Definition table_area (df : DataFrame) : M unit :=
  st_header "📊 데이터 테이블" ;;
  st_dataframe df ;;
  st_header "📝 한글 텍스트 테스트" ;;
  st_write "**한글 표시 테스트:**" ;;
  st_write "• 안녕하세요! 👋" ;;
  st_write "• 한글이 잘 표시되나요?" ;;
  st_write "• 특수문자: ㄱㄴㄷㄹㅁㅂㅅㅇㅈㅊㅋㅌㅍㅎ" ;;
  st_header "📈 주요 지표" ;;
  st_metric "총 인구수"
    (MvText (format_comma (series_sum (col_population df)) +:+ "명")) ;;
  st_metric "평균 면적" (MvFloat1 (series_mean (col_area df)) "㎢") ;;
  st_metric "최고 인구밀도"
    (MvText (format_comma (series_max (col_density df)) +:+ "명/㎢")) ;;
  st_metric "최저 인구밀도"
    (MvText (format_comma (series_min (col_density df)) +:+ "명/㎢")).

(** Lines 188-214. *)
Definition plotly_area (df : DataFrame) : M unit :=
  st_markdown "---" ;;
  st_header "🎨 Plotly 한글 차트 테스트" ;;
  st_plotly_chart
    (mkPlotlyFigure (PxBar (col_region df) (col_population df))
       "지역별 인구수 (Plotly)" plotly_font_family) ;;
  st_plotly_chart
    (mkPlotlyFigure (GoPie (col_region df) (col_population df) 0.3%Q)
       "지역별 인구 비율 (도넛 차트)" plotly_font_family).

(** Line 224: the names shown in the diagnostic panel, before the cut. *)
Definition has_marker (font_name : string) : bool :=
  Py.str_contains "Gothic" font_name
  || Py.str_contains "Noto" font_name
  || Py.str_contains "Malgun" font_name.

Definition marker_fonts (host : Host) : list string :=
  map name (List.filter (fun f => has_marker (name f)) (ttflist host)).

(** Lines 227-228 iterate over [available_fonts[:10]]. *)
Definition panel_fonts (host : Host) : list string :=
  firstn 10 (marker_fonts host).

(** Lines 216-228: the expander. *)
Definition font_info (host : Host) (font_name : option string) : M unit :=
  st_markdown "---" ;;
  st_write ("**현재 시스템:** " +:+ platform_system host) ;;
  st_write ("**설정된 폰트:** " +:+ Py.str font_name) ;;
  family ← rc_get "font.family";
  st_write ("**Matplotlib 폰트 패밀리:** " +:+ rc_str family) ;;
  match marker_fonts host with
  | [] => ret tt
  | _ :: _ =>
      st_write "**사용 가능한 한글 폰트:**" ;;
      for_each (panel_fonts host) (fun font => st_write ("- " +:+ font))
  end.

(** Lines 66-228.  [choice] is the user's selection in the sidebar. *)
Definition main (host : Host) (choice : nat) : M unit :=
  font_name ← cached_setup_korean_font host;
  st_title "🇰🇷 Streamlit 한글 폰트 테스트" ;;
  st_markdown "---" ;;
  st_sidebar_header "📊 차트 옵션" ;;
  chart_type ← st_sidebar_selectbox "차트 유형 선택" chart_options choice;
  let df := data in
  chart_area chart_type df ;;
  table_area df ;;
  plotly_area df ;;
  font_info host font_name.

(** The process over a session: each user interaction runs the script
    again on the state the previous run left. *)
Fixpoint session (host : Host) (choices : list nat) (s : Proc) : Proc :=
  match choices with
  | [] => s
  | choice :: rest => session host rest (final (main host choice s))
  end.

(** ** Vocabulary of the properties *)

(** [c] is the candidate of highest priority that is installed: it is
    installed, and nothing listed before it is.  Membership in the
    installed names is [In], that is, equality with one of them. *)
Definition first_present (candidates installed : list string) (c : string)
    : Prop :=
  exists higher lower : list string,
    candidates = higher ++ c :: lower /\
    In c installed /\
    forall h, In h higher -> ~ In h installed.

(** [rcParams] after lines 47-48 (or 58-59) ran on [rc] with [font]. *)
Definition configured (font : string) (rc : gmap string rcval)
    : gmap string rcval :=
  <["axes.unicode_minus" := RcBool false]>
    (<["font.family" := RcList (validate_stringlist font)]> rc).

(** The bundled font file is missing, unreadable or malformed. *)
Definition bundled_unusable (host : Host) : Prop :=
  font_files host !! font_path = None \/
  font_files host !! font_path = Some Unreadable \/
  font_files host !! font_path = Some Malformed.

(** No candidate of the platform's list is installed. *)
Definition no_candidate (host : Host) : Prop :=
  forall c, In c (font_candidates (platform_system host)) ->
            ~ In c (available_fonts host).

(** The candidates of the three lists together. *)
Definition all_candidates : list string :=
  windows_candidates ++ macos_candidates ++ linux_candidates.

(** [sub] occurs in [s]: some text, then [sub], then some text. *)
Definition occurs_in (sub s : string) : Prop :=
  exists before after, s = before +:+ sub +:+ after.

(** The figure [chart_area] hands to [st.pyplot], by chart type. *)
Definition drawn_figure (chart_type : string) (df : DataFrame)
    : option MplFigure :=
  if String.eqb chart_type "막대 차트" then Some (bar_chart df)
  else if String.eqb chart_type "선 그래프" then Some (line_chart df)
  else if String.eqb chart_type "파이 차트" then Some (pie_chart df)
  else if String.eqb chart_type "히트맵" then Some (heatmap_chart df)
  else if String.eqb chart_type "산점도" then Some (scatter_chart df)
  else None.

(** The family names an [rcParams] value stands for. *)
Definition families_of (v : option rcval) : option (list string) :=
  match v with
  | Some (RcList l) => Some l
  | Some (RcStr s) => Some (validate_stringlist s)
  | _ => None
  end.

(** The font families a drawn chart is rendered with: a matplotlib figure
    takes them from the [rcParams] in force, a Plotly figure carries its
    own in its layout, as a comma-separated list.  Elements that are not
    charts have none. *)
Definition drawn_family (e : Element) : option (option (list string)) :=
  match e with
  | ElPyplot _ rc => Some (families_of (rc !! "font.family"))
  | ElPlotly fig => Some (Some (validate_stringlist (layout_font_family fig)))
  | _ => None
  end.


(** What holds of each element of a run when the resolver left [rc]:
    matplotlib figures are rendered under [rc], Plotly figures carry the
    fixed family of lines 201 and 211. *)
Definition element_ok (rc : gmap string rcval) (e : Element) : Prop :=
  match e with
  | ElPyplot _ rc' => rc' = rc
  | ElPlotly fig => layout_font_family fig = plotly_font_family
  | _ => True
  end.

(** The wedges of a pie, as (label, value) pairs. *)
Definition wedges_of (a : Artist) : list (string * Z) :=
  match a with
  | Wedges labels x _ => combine labels x
  | _ => []
  end.

(** Index of "파이 차트" among the options of the selectbox. *)
Definition pie_choice : nat := 2.

(** What [main] shows between the resolver's messages and the chart. *)
Definition page_head : list Element :=
  [ElText Title "🇰🇷 Streamlit 한글 폰트 테스트";
   ElText Markdown "---";
   ElText SidebarHeader "📊 차트 옵션";
   ElSelectbox "차트 유형 선택" chart_options].

(** The option the selectbox returns for the user's [choice]. *)
Definition chosen (choice : nat) : string :=
  nth choice chart_options (hd "" chart_options).

(** The states a process passes through when it starts in [s0] with an
    empty cache: [s0] itself, and after the first run the state in which
    the resolver's configuration is in place and its result is cached. *)
Definition settled (host : Host) (s0 s : Proc) : Prop :=
  s = s0 \/
  exists v,
    result (setup_korean_font host s0) = Ret v /\
    s = mkProc (rcParams (final (setup_korean_font host s0)))
          (Some (v, emitted (setup_korean_font host s0))).

(** The pie scenario with [total] as the population total: the run with
    the pie chart selected draws a pie whose eight wedges are labelled
    with the regions and whose values sum to [total], and the metric
    "총 인구수" shows [total]. *)
Definition pie_run_total (host : Host) (s : Proc) (total : Z) : Prop :=
  exists wedges rc,
    In (ElPyplot (mkMplFigure [wedges] "지역별 인구 비율" "" "") rc)
      (emitted (main host pie_choice s)) /\
    map fst (wedges_of wedges) = col_region data /\
    length (wedges_of wedges) = 8%nat /\
    series_sum (map snd (wedges_of wedges)) = total /\
    In (ElMetric "총 인구수" (MvText (format_comma total +:+ "명")))
      (emitted (main host pie_choice s)).

(** ** Hosts and states used as concrete instances *)

(** A process in which nothing was configured or cached yet.  The two keys
    carry matplotlib's stock values. *)
Definition fresh_proc : Proc :=
  mkProc (<["axes.unicode_minus" := RcBool true]>
            (<["font.family" := RcList ["sans-serif"]]> ∅))
         None.

Definition darwin_host : Host :=
  mkHost "Darwin"
    [mkFontEntry "/System/Library/Fonts/AppleSDGothicNeo.ttc"
       "Apple SD Gothic Neo";
     mkFontEntry "/System/Library/Fonts/Helvetica.ttc" "Helvetica"]
    ∅.

Definition windows_host : Host :=
  mkHost "Windows"
    [mkFontEntry "C:\Windows\Fonts\malgun.ttf" "Malgun Gothic"]
    ∅.

Definition linux_host : Host :=
  mkHost "Linux"
    [mkFontEntry "/usr/share/fonts/NotoSansCJK-Regular.ttc" "Noto Sans CJK KR";
     mkFontEntry "/usr/share/fonts/NotoSansCJK-Bold.ttc" "Noto Sans CJK KR";
     mkFontEntry "/usr/share/fonts/DejaVuSans.ttf" "DejaVu Sans"]
    ∅.

(** No candidate installed and no file next to the script. *)
Definition bare_host : Host :=
  mkHost "Linux"
    [mkFontEntry "/usr/share/fonts/FreeSans.ttf" "FreeSans"]
    ∅.

(** No candidate installed, the bundled font file is there. *)
Definition bundled_host : Host :=
  mkHost "Linux"
    [mkFontEntry "/usr/share/fonts/FreeSans.ttf" "FreeSans"]
    {[ font_path := ValidFont "Noto Sans KR" ]}.

(** A host with twelve installed fonts that carry a marker and two that
    do not. *)
Definition crowded_host : Host :=
  mkHost "Linux"
    (map (fun n => mkFontEntry (n +:+ ".ttf") n)
       ["Noto Sans"; "Arial"; "Noto Serif"; "Nanum Gothic"; "Malgun Gothic";
        "Noto Sans CJK KR"; "Noto Sans CJK JP"; "Noto Sans"; "Century Gothic";
        "Noto Mono"; "DejaVu Sans"; "Noto Color Emoji"; "Apple SD Gothic Neo";
        "MS Gothic"])
    ∅.

(** ** Further vocabulary *)

(** The element is a text of the given kind, whatever it says. *)
Definition shows (kind : TextKind) (els : list Element) : Prop :=
  exists body, In (ElText kind body) els.

(** The same host with other font files on disk. *)
Definition with_font_files (host : Host) (files : gmap string FontFile)
    : Host :=
  mkHost (platform_system host) (ttflist host) files.

(** A process with one more [rcParams] key than [fresh_proc] and nothing
    cached. *)
Definition stocked_proc : Proc :=
  mkProc (<["font.size" := RcStr "10.0"]> (rcParams fresh_proc)) None.

(** [linux_host] with the font manager's list in another order and a
    repeated entry dropped. *)
Definition linux_host_reordered : Host :=
  mkHost "Linux"
    [mkFontEntry "/usr/share/fonts/DejaVuSans.ttf" "DejaVu Sans";
     mkFontEntry "/usr/share/fonts/NotoSansCJK-Regular.ttc" "Noto Sans CJK KR"]
    ∅.

(** The characters of [s] that are not commas. *)
Definition strip_commas (s : string) : string :=
  String.string_of_list_ascii
    (List.filter (fun c => negb (Ascii.eqb c comma))
       (String.list_ascii_of_string s)).

(** [f"{n}"]: the plain decimal rendering of an integer. *)
Definition format_plain (n : Z) : string :=
  NilZero.string_of_int (Z.to_int n).


(** A family name that the validator of ['font.family'] keeps whole:
    not empty, no comma, no whitespace at either end. *)
Definition plain_name (s : string) : bool :=
  negb (String.eqb s "")
  && String.eqb (Py.strip s) s
  && forallb (fun c => negb (Py.byte c =? 44)%N)
       (String.list_ascii_of_string s).




(** * Properties *)

(** ** Python helpers *)

Lemma list_contains_In (x : string) (xs : list string) :
  Py.list_contains x xs = true <-> In x xs.
Proof.
  induction xs as [|y ys IH]; simpl.
  - split; [discriminate | tauto].
  - destruct (String.eqb x y) eqn:E.
    + apply String.eqb_eq in E. subst. tauto.
    + apply String.eqb_neq in E. rewrite IH. split.
      * auto.
      * intros [Heq | Hin]; [congruence | exact Hin].
Qed.

Lemma list_contains_not_In (x : string) (xs : list string) :
  Py.list_contains x xs = false <-> ~ In x xs.
Proof.
  rewrite <- list_contains_In. destruct (Py.list_contains x xs); split;
    congruence.
Qed.

(** ** The candidate scan *)

Lemma scan_candidates_Some (installed candidates : list string) (c : string) :
  scan_candidates installed candidates None = Some c <->
  first_present candidates installed c.
Proof.
  split.
  - induction candidates as [|font rest IH]; simpl; [discriminate|].
    destruct (Py.list_contains font installed) eqn:E.
    + intros [= ->]. exists [], rest. apply list_contains_In in E.
      simpl. tauto.
    + intros H. destruct (IH H) as (higher & lower & -> & Hin & Hno).
      exists (font :: higher), lower. repeat split; [exact Hin|].
      intros h [<- | Hh]; [by apply list_contains_not_In | by apply Hno].
  - intros (higher & lower & -> & Hin & Hno).
    induction higher as [|h higher IH]; simpl.
    + apply list_contains_In in Hin. by rewrite Hin.
    + assert (Py.list_contains h installed = false) as ->.
      { apply list_contains_not_In, Hno. by left. }
      apply IH. intros x Hx. apply Hno. by right.
Qed.

Lemma scan_candidates_None (installed candidates : list string) :
  scan_candidates installed candidates None = None <->
  forall c, In c candidates -> ~ In c installed.
Proof.
  induction candidates as [|font rest IH]; simpl.
  - split; [intros _ c [] | reflexivity].
  - destruct (Py.list_contains font installed) eqn:E.
    + apply list_contains_In in E. split; [discriminate|].
      intros H. exfalso. apply (H font); [by left | exact E].
    + apply list_contains_not_In in E. rewrite IH. split.
      * intros H c [<- | Hc]; [exact E | by apply H].
      * intros H c Hc. apply H. by right.
Qed.

Lemma first_present_In (candidates installed : list string) (c : string) :
  first_present candidates installed c -> In c candidates.
Proof.
  intros (higher & lower & -> & _). apply in_or_app. right. by left.
Qed.

(** The scan only looks at which names are installed, not at their order
    or multiplicity. *)
Lemma scan_candidates_ext (a b candidates : list string) :
  (forall x, In x a <-> In x b) ->
  scan_candidates a candidates None = scan_candidates b candidates None.
Proof.
  intros Hab. induction candidates as [|font rest IH]; simpl; [done|].
  assert (Py.list_contains font a = Py.list_contains font b) as ->.
  { destruct (Py.list_contains font b) eqn:E.
    - apply list_contains_In, Hab, list_contains_In, E.
    - apply list_contains_not_In. rewrite Hab.
      by apply list_contains_not_In. }
  by rewrite IH.
Qed.

Lemma font_candidates_cases (system : string) :
  font_candidates system = windows_candidates \/
  font_candidates system = macos_candidates \/
  font_candidates system = linux_candidates.
Proof.
  unfold font_candidates.
  destruct (String.eqb system "Windows"); [tauto|].
  destruct (String.eqb system "Darwin"); tauto.
Qed.

Lemma font_candidates_truthy (system font : string) :
  In font (font_candidates system) -> Py.truthy (Some font) = true.
Proof.
  destruct (font_candidates_cases system) as [-> | [-> | ->]]; simpl;
    intros H; repeat (destruct H as [<- | H]; [reflexivity|]); destruct H.
Qed.

(** ** The three ways [setup_korean_font] ends *)

Lemma setup_matched (host : Host) (s : Proc) (font : string) :
  scan_candidates (available_fonts host)
    (font_candidates (platform_system host)) None = Some font ->
  setup_korean_font host s =
    mkRun (Ret (Some font))
      (mkProc (configured font (rcParams s)) (resource_cache s))
      [ElText Success ("✅ 한글 폰트 설정 완료: " +:+ font)].
Proof.
  intros Hscan. unfold setup_korean_font. cbv zeta. rewrite Hscan.
  apply scan_candidates_Some, first_present_In, font_candidates_truthy
    in Hscan.
  rewrite Hscan. reflexivity.
Qed.

Lemma setup_fallback (host : Host) (s : Proc) :
  no_candidate host -> setup_korean_font host s = load_bundled_font host s.
Proof.
  intros Hno. apply scan_candidates_None in Hno.
  unfold setup_korean_font. cbv zeta. by rewrite Hno.
Qed.

Lemma load_bundled_valid (host : Host) (s : Proc) (family : string) :
  font_files host !! font_path = Some (ValidFont family) ->
  load_bundled_font host s =
    mkRun (Ret (Some family))
      (mkProc (configured family (rcParams s)) (resource_cache s))
      [ElText Warning
         "⚠️ 적절한 한글 폰트를 찾을 수 없습니다. 기본 폰트를 사용합니다.";
       ElText Success "✅ 폰트 파일에서 한글 폰트 로드 완료"].
Proof.
  intros Hfile. unfold load_bundled_font, get_name. simpl fp_fname.
  rewrite Hfile. reflexivity.
Qed.

Lemma load_bundled_unusable (host : Host) (s : Proc) :
  bundled_unusable host ->
  load_bundled_font host s =
    mkRun (Ret None) s
      [ElText Warning
         "⚠️ 적절한 한글 폰트를 찾을 수 없습니다. 기본 폰트를 사용합니다.";
       ElText Error "❌ 한글 폰트 설정에 실패했습니다."].
Proof.
  intros Hfile. unfold load_bundled_font, get_name. simpl fp_fname.
  destruct Hfile as [-> | [-> | ->]]; reflexivity.
Qed.

Lemma all_candidates_no_candidate (host : Host) :
  (forall c, In c all_candidates -> ~ In c (available_fonts host)) ->
  no_candidate host.
Proof.
  intros Hall c Hc. apply Hall. unfold all_candidates.
  destruct (font_candidates_cases (platform_system host)) as [E | [E | E]];
    rewrite E in Hc; rewrite !in_app_iff; tauto.
Qed.

Lemma setup_outcomes (host : Host) (s : Proc) :
  (exists font,
     first_present (font_candidates (platform_system host))
       (available_fonts host) font /\
     result (setup_korean_font host s) = Ret (Some font) /\
     rcParams (final (setup_korean_font host s)) =
       configured font (rcParams s)) \/
  (no_candidate host /\
   exists family,
     font_files host !! font_path = Some (ValidFont family) /\
     result (setup_korean_font host s) = Ret (Some family) /\
     rcParams (final (setup_korean_font host s)) =
       configured family (rcParams s)) \/
  (no_candidate host /\ bundled_unusable host /\
   result (setup_korean_font host s) = Ret None /\
   final (setup_korean_font host s) = s).
Proof.
  destruct (scan_candidates (available_fonts host)
              (font_candidates (platform_system host)) None) as [font|] eqn:E.
  - left. exists font. rewrite (setup_matched _ _ _ E).
    split; [by apply scan_candidates_Some | done].
  - right. pose proof (proj1 (scan_candidates_None _ _) E) as Hno.
    rewrite (setup_fallback _ _ Hno).
    destruct (font_files host !! font_path) as [[family| |]|] eqn:F.
    + left. split; [done|]. exists family.
      by rewrite (load_bundled_valid _ _ _ F).
    + right. assert (bundled_unusable host) as U by (red; tauto).
      by rewrite (load_bundled_unusable _ _ U).
    + right. assert (bundled_unusable host) as U by (red; tauto).
      by rewrite (load_bundled_unusable _ _ U).
    + right. assert (bundled_unusable host) as U by (red; tauto).
      by rewrite (load_bundled_unusable _ _ U).
Qed.

(** The body never lets an exception escape. *)
Lemma setup_returns (host : Host) (s : Proc) :
  exists v, result (setup_korean_font host s) = Ret v.
Proof.
  destruct (setup_outcomes host s)
    as [(f & _ & -> & _) | [(_ & f & _ & -> & _) | (_ & _ & -> & _)]]; eauto.
Qed.

Lemma setup_keeps_cache (host : Host) (s : Proc) :
  resource_cache (final (setup_korean_font host s)) = resource_cache s.
Proof.
  destruct (scan_candidates (available_fonts host)
              (font_candidates (platform_system host)) None) as [font|] eqn:E.
  - by rewrite (setup_matched _ _ _ E).
  - pose proof (proj1 (scan_candidates_None _ _) E) as Hno.
    rewrite (setup_fallback _ _ Hno).
    destruct (font_files host !! font_path) as [[family| |]|] eqn:F.
    + by rewrite (load_bundled_valid _ _ _ F).
    + by rewrite load_bundled_unusable by (red; tauto).
    + by rewrite load_bundled_unusable by (red; tauto).
    + by rewrite load_bundled_unusable by (red; tauto).
Qed.

Lemma configured_family (font : string) (rc : gmap string rcval) :
  configured font rc !! "font.family" =
    Some (RcList (validate_stringlist font)).
Proof.
  unfold configured. rewrite lookup_insert_ne by done.
  apply lookup_insert_eq.
Qed.

Lemma configured_unicode_minus (font : string) (rc : gmap string rcval) :
  configured font rc !! "axes.unicode_minus" = Some (RcBool false).
Proof. unfold configured. apply lookup_insert_eq. Qed.

Create HintDb rc.
#[local] Hint Resolve configured_family configured_unicode_minus : rc.

Lemma configured_other (font key : string) (rc : gmap string rcval) :
  key <> "font.family" -> key <> "axes.unicode_minus" ->
  configured font rc !! key = rc !! key.
Proof.
  intros H1 H2. unfold configured. by rewrite !lookup_insert_ne.
Qed.

Lemma configured_idempotent (font : string) (rc : gmap string rcval) :
  configured font (configured font rc) = configured font rc.
Proof.
  unfold configured.
  rewrite (insert_insert_ne _ "font.family" "axes.unicode_minus") by done.
  by rewrite !insert_insert_eq.
Qed.

(** ** What the validator makes of a name *)

Lemma split_comma_plain (s : string) :
  forallb (fun c => negb (Py.byte c =? 44)%N)
    (String.list_ascii_of_string s) = true ->
  Py.split_comma s = [s].
Proof.
  induction s as [|c s IH]; [reflexivity|].
  cbn [String.list_ascii_of_string forallb Py.split_comma].
  intros H. apply andb_prop in H as [Hc Hs].
  apply negb_true_iff in Hc. rewrite Hc, (IH Hs). reflexivity.
Qed.

(** A plain name is kept as the one-element list of itself. *)
Lemma validate_plain (s : string) :
  plain_name s = true -> validate_stringlist s = [s].
Proof.
  unfold plain_name, validate_stringlist. intros H.
  apply andb_prop in H as [H Hcomma]. apply andb_prop in H as [Hne Hstrip].
  apply String.eqb_eq in Hstrip.
  rewrite (split_comma_plain s Hcomma). cbn [map List.filter].
  by rewrite Hstrip, Hne.
Qed.


(** ** The resolver *)

(** C1. Whatever [platform.system()] reports (so for each of the Windows,
    macOS and other candidate lists), if at least one candidate of the
    selected list is among the installed font names, the function returns
    the first candidate, in list order, that is installed; a candidate is
    installed when it is equal to an installed name. *)
Theorem resolver_returns_first_installed_candidate (host : Host) (s : Proc) :
  (exists c, In c (font_candidates (platform_system host)) /\
             In c (available_fonts host)) ->
  exists font,
    first_present (font_candidates (platform_system host))
      (available_fonts host) font /\
    result (setup_korean_font host s) = Ret (Some font).
Proof.
  intros (c & Hc & Hinst).
  destruct (setup_outcomes host s)
    as [(f & Hf & Hres & _) | [(Hno & _) | (Hno & _)]].
  - by exists f.
  - destruct (Hno c Hc Hinst).
  - destruct (Hno c Hc Hinst).
Qed.

Lemma resolver_returns_first_installed_candidate_witness :
  exists font,
    first_present (font_candidates "Linux")
      ["Noto Sans CJK KR"; "Noto Sans CJK KR"; "DejaVu Sans"] font /\
    result (setup_korean_font linux_host fresh_proc) = Ret (Some font).
Proof.
  apply (resolver_returns_first_installed_candidate linux_host fresh_proc).
  exists "DejaVu Sans". simpl. tauto.
Defined.

(** Only equality counts: a longer installed name that merely contains a
    candidate does not select it. *)
Example substring_is_no_match :
  result (setup_korean_font
            (mkHost "Windows"
               [mkFontEntry "malgunbd.ttf" "Malgun Gothic Bold"] ∅)
            fresh_proc) = Ret None.
Proof. reflexivity. Qed.

(** C2. When none of the candidates of the three lists is installed and
    the bundled font file is missing, unreadable or malformed, the function
    returns [None] and leaves the process state as it was: [rcParams], and
    with it the font family and the minus-sign flag, is unchanged. *)
Theorem resolver_fails_and_leaves_config (host : Host) (s : Proc) :
  (forall c, In c all_candidates -> ~ In c (available_fonts host)) ->
  bundled_unusable host ->
  result (setup_korean_font host s) = Ret None /\
  final (setup_korean_font host s) = s /\
  rcParams (final (setup_korean_font host s)) !! "font.family" =
    rcParams s !! "font.family" /\
  rcParams (final (setup_korean_font host s)) !! "axes.unicode_minus" =
    rcParams s !! "axes.unicode_minus".
Proof.
  intros Hall Hfile. apply all_candidates_no_candidate in Hall.
  rewrite (setup_fallback _ _ Hall), (load_bundled_unusable _ _ Hfile).
  done.
Qed.

Lemma resolver_fails_and_leaves_config_witness :
  result (setup_korean_font bare_host fresh_proc) = Ret None /\
  final (setup_korean_font bare_host fresh_proc) = fresh_proc /\
  rcParams (final (setup_korean_font bare_host fresh_proc)) !! "font.family" =
    rcParams fresh_proc !! "font.family" /\
  rcParams (final (setup_korean_font bare_host fresh_proc))
    !! "axes.unicode_minus" = rcParams fresh_proc !! "axes.unicode_minus".
Proof.
  apply (resolver_fails_and_leaves_config bare_host fresh_proc).
  - intros c Hc [Hin | []]. simpl in Hin. subst c. simpl in Hc.
    repeat (destruct Hc as [Hc | Hc]; [discriminate Hc|]). destruct Hc.
  - left. reflexivity.
Defined.

(** C3. When none of the candidates of the three lists is installed and a
    valid font file sits at the fixed relative path, the function returns
    the family name read from that file and assigns that name to
    [rcParams['font.family']], which then holds the validated value of the
    name: the one-element list of it when the name is plain. *)
Theorem resolver_falls_back_to_bundled_font
    (host : Host) (s : Proc) (family : string) :
  (forall c, In c all_candidates -> ~ In c (available_fonts host)) ->
  font_files host !! "NotoSansKR-Regular.ttf" = Some (ValidFont family) ->
  result (setup_korean_font host s) = Ret (Some family) /\
  rcParams (final (setup_korean_font host s)) !! "font.family" =
    Some (RcList (validate_stringlist family)) /\
  (plain_name family = true ->
   rcParams (final (setup_korean_font host s)) !! "font.family" =
     Some (RcList [family])).
Proof.
  intros Hall Hfile. apply all_candidates_no_candidate in Hall.
  rewrite (setup_fallback _ _ Hall), (load_bundled_valid _ _ _ Hfile).
  cbn [result final rcParams]. rewrite configured_family.
  split; [done|]. split; [done|].
  intros Hplain. by rewrite (validate_plain _ Hplain).
Qed.

Lemma resolver_falls_back_to_bundled_font_witness :
  result (setup_korean_font bundled_host fresh_proc) =
    Ret (Some "Noto Sans KR") /\
  rcParams (final (setup_korean_font bundled_host fresh_proc))
    !! "font.family" = Some (RcList ["Noto Sans KR"]).
Proof.
  destruct (resolver_falls_back_to_bundled_font bundled_host fresh_proc
              "Noto Sans KR") as (Hres & _ & Hplain).
  - intros c Hc [Hin | []]. simpl in Hin. subst c. simpl in Hc.
    repeat (destruct Hc as [Hc | Hc]; [discriminate Hc|]). destruct Hc.
  - reflexivity.
  - split; [exact Hres | apply Hplain; reflexivity].
Defined.

(** C4. The candidate list is a function of the platform name alone:
    ["Windows"] selects the Windows list, ["Darwin"] the macOS list and
    every other name the Linux list.  On Darwin with exactly
    Apple SD Gothic Neo and Helvetica installed the function returns
    Apple SD Gothic Neo; on Windows with exactly Malgun Gothic installed
    it returns Malgun Gothic. *)
Theorem candidate_list_by_platform :
  font_candidates "Windows" =
    ["Malgun Gothic"; "Microsoft YaHei"; "SimHei"] /\
  font_candidates "Darwin" =
    ["AppleGothic"; "Apple SD Gothic Neo"; "Noto Sans CJK KR"] /\
  (forall system, system <> "Windows" -> system <> "Darwin" ->
     font_candidates system =
       ["Noto Sans CJK KR"; "DejaVu Sans"; "Liberation Sans"]) /\
  (forall host s,
     platform_system host = "Darwin" ->
     (forall x, In x (available_fonts host) <->
                x = "Apple SD Gothic Neo" \/ x = "Helvetica") ->
     result (setup_korean_font host s) = Ret (Some "Apple SD Gothic Neo")) /\
  (forall host s,
     platform_system host = "Windows" ->
     (forall x, In x (available_fonts host) <-> x = "Malgun Gothic") ->
     result (setup_korean_font host s) = Ret (Some "Malgun Gothic")).
Proof.
  split; [reflexivity|]. split; [reflexivity|]. split; [|split].
  - intros system HW HD. unfold font_candidates.
    apply String.eqb_neq in HW, HD. by rewrite HW, HD.
  - intros host s Hsys Hset.
    rewrite (setup_matched host s "Apple SD Gothic Neo"); [done|].
    rewrite Hsys.
    rewrite (scan_candidates_ext _ ["Apple SD Gothic Neo"; "Helvetica"]);
      [reflexivity|].
    intros x. rewrite Hset. simpl. intuition congruence.
  - intros host s Hsys Hset.
    rewrite (setup_matched host s "Malgun Gothic"); [done|].
    rewrite Hsys.
    rewrite (scan_candidates_ext _ ["Malgun Gothic"]); [reflexivity|].
    intros x. rewrite Hset. simpl. intuition congruence.
Qed.

Lemma candidate_list_by_platform_witness :
  font_candidates "Linux" =
    ["Noto Sans CJK KR"; "DejaVu Sans"; "Liberation Sans"] /\
  result (setup_korean_font darwin_host fresh_proc) =
    Ret (Some "Apple SD Gothic Neo") /\
  result (setup_korean_font windows_host fresh_proc) =
    Ret (Some "Malgun Gothic").
Proof.
  destruct candidate_list_by_platform as (_ & _ & Hother & Hdarwin & Hwin).
  split; [|split].
  - apply (Hother "Linux"); discriminate.
  - apply (Hdarwin darwin_host fresh_proc); [reflexivity|].
    intros x. simpl. intuition congruence.
  - apply (Hwin windows_host fresh_proc); [reflexivity|].
    intros x. simpl. intuition congruence.
Defined.

(** C5. When a candidate is installed, or the bundled font file is valid,
    the function returns a font name, and on return
    [rcParams['axes.unicode_minus']] is [False] and
    [rcParams['font.family']] has been set from that name: it holds the
    validated list of it. *)
Theorem success_disables_unicode_minus (host : Host) (s : Proc) :
  (exists c, In c (font_candidates (platform_system host)) /\
             In c (available_fonts host)) \/
  (exists family,
     font_files host !! "NotoSansKR-Regular.ttf" = Some (ValidFont family)) ->
  exists font,
    result (setup_korean_font host s) = Ret (Some font) /\
    rcParams (final (setup_korean_font host s)) !! "axes.unicode_minus" =
      Some (RcBool false) /\
    rcParams (final (setup_korean_font host s)) !! "font.family" =
      Some (RcList (validate_stringlist font)).
Proof.
  intros Hcause.
  destruct (setup_outcomes host s)
    as [(f & _ & Hres & Hrc) |
        [(_ & f & _ & Hres & Hrc) | (Hno & Hbad & _)]].
  - exists f. rewrite Hrc. auto with rc.
  - exists f. rewrite Hrc. auto with rc.
  - exfalso. destruct Hcause as [(c & Hc & Hin) | (family & Hfile)].
    + exact (Hno c Hc Hin).
    + change "NotoSansKR-Regular.ttf" with font_path in Hfile.
      destruct Hbad as [H | [H | H]]; congruence.
Qed.

Lemma success_disables_unicode_minus_witness :
  exists font,
    result (setup_korean_font bundled_host fresh_proc) = Ret (Some font) /\
    rcParams (final (setup_korean_font bundled_host fresh_proc))
      !! "axes.unicode_minus" = Some (RcBool false) /\
    rcParams (final (setup_korean_font bundled_host fresh_proc))
      !! "font.family" = Some (RcList (validate_stringlist font)).
Proof.
  apply (success_disables_unicode_minus bundled_host fresh_proc).
  right. exists "Noto Sans KR". reflexivity.
Defined.

(** The flag really changes: it was [True] before the call. *)
Example unicode_minus_flips :
  rcParams fresh_proc !! "axes.unicode_minus" = Some (RcBool true) /\
  rcParams (final (setup_korean_font windows_host fresh_proc))
    !! "axes.unicode_minus" = Some (RcBool false).
Proof. split; reflexivity. Qed.

(** ** Memoisation *)

Lemma cached_setup_hit (host : Host) (s : Proc) v els :
  resource_cache s = Some (v, els) ->
  cached_setup_korean_font host s = mkRun (Ret v) s els.
Proof.
  intros H. unfold cached_setup_korean_font, cache_resource. by rewrite H.
Qed.

Lemma cached_setup_miss (host : Host) (s : Proc) :
  resource_cache s = None ->
  exists v,
    result (setup_korean_font host s) = Ret v /\
    cached_setup_korean_font host s =
      mkRun (Ret v)
        (mkProc (rcParams (final (setup_korean_font host s)))
           (Some (v, emitted (setup_korean_font host s))))
        (emitted (setup_korean_font host s)).
Proof.
  intros H. destruct (setup_returns host s) as [v Hv]. exists v.
  split; [done|].
  unfold cached_setup_korean_font, cache_resource. by rewrite H, Hv.
Qed.

(** The first call of the decorated function is a run of the body: what
    is proved of [setup_korean_font] below holds of that call as well. *)
Lemma cached_setup_first_call (host : Host) (s : Proc) :
  resource_cache s = None ->
  result (cached_setup_korean_font host s) =
    result (setup_korean_font host s) /\
  rcParams (final (cached_setup_korean_font host s)) =
    rcParams (final (setup_korean_font host s)) /\
  emitted (cached_setup_korean_font host s) =
    emitted (setup_korean_font host s).
Proof.
  intros H. destruct (cached_setup_miss host s H) as (v & Hv & ->).
  by rewrite Hv.
Qed.

Lemma setup_result_family (host : Host) (s : Proc) (font : string) :
  result (setup_korean_font host s) = Ret (Some font) ->
  rcParams (final (setup_korean_font host s)) =
    configured font (rcParams s).
Proof.
  destruct (setup_outcomes host s)
    as [(f & _ & -> & ->) | [(_ & f & _ & -> & ->) | (_ & _ & -> & _)]];
    [by intros [= <-] | by intros [= <-] | discriminate].
Qed.

(** C8. Two calls in a row on the same host give the same result and the
    same final configuration.  This holds for the body run twice, where
    the second run writes the same values again, and for the decorated
    function, whose second call is answered from the cache and leaves the
    whole process state alone. *)
Theorem resolution_deterministic_idempotent (host : Host) (s : Proc) :
  let first := setup_korean_font host s in
  let second := setup_korean_font host (final first) in
  let cached_first := cached_setup_korean_font host s in
  let cached_second := cached_setup_korean_font host (final cached_first) in
  (result second = result first /\
   rcParams (final second) = rcParams (final first)) /\
  (result cached_second = result cached_first /\
   final cached_second = final cached_first).
Proof.
  cbv zeta. split.
  - destruct (setup_outcomes host s)
      as [(f & Hf & Hres & Hrc) |
          [(Hno & f & Hfile & Hres & Hrc) | (Hno & Hbad & Hres & Hfin)]].
    + apply scan_candidates_Some in Hf.
      rewrite !(setup_matched _ _ _ Hf). simpl.
      by rewrite configured_idempotent.
    + rewrite !(setup_fallback _ _ Hno), !(load_bundled_valid _ _ _ Hfile).
      simpl. by rewrite configured_idempotent.
    + by rewrite !Hfin.
  - destruct (resource_cache s) as [[v els]|] eqn:Hc.
    + by rewrite !(cached_setup_hit _ _ _ _ Hc).
    + destruct (cached_setup_miss host s Hc) as (v & _ & ->).
      cbn [final result]. by erewrite cached_setup_hit by reflexivity.
Qed.




(** ** Running the script *)

Lemma run_bind {A B} (m : M A) (k : A -> M B) (s : Proc) (a : A) :
  result (m s) = Ret a ->
  (m ≫= k) s =
    mkRun (result (k a (final (m s)))) (final (k a (final (m s))))
      (emitted (m s) ++ emitted (k a (final (m s)))).
Proof.
  intros H. unfold mbind, M_bind, bind. cbv zeta. by rewrite H.
Qed.

Lemma run_bind_raise {A B} (m : M A) (k : A -> M B) (s : Proc) :
  result (m s) = Raise ->
  (m ≫= k) s = mkRun Raise (final (m s)) (emitted (m s)).
Proof.
  intros H. unfold mbind, M_bind, bind. cbv zeta. by rewrite H.
Qed.

Lemma run_rc_get (key : string) (s : Proc) :
  rc_get key s =
    match rcParams s !! key with
    | Some v => mkRun (Ret v) s []
    | None => mkRun Raise s []
    end.
Proof. reflexivity. Qed.

Lemma run_emit (e : Element) (s : Proc) :
  st_emit e s = mkRun (Ret tt) s [e].
Proof. reflexivity. Qed.

Lemma chart_area_run (chart_type : string) (df : DataFrame) (s : Proc) :
  chart_area chart_type df s =
    mkRun (Ret tt) s
      (ElText Header "📈 차트 영역" ::
       match drawn_figure chart_type df with
       | Some fig => [ElPyplot fig (rcParams s)]
       | None => []
       end).
Proof.
  unfold chart_area, drawn_figure.
  rewrite (run_bind _ _ _ tt) by reflexivity.
  repeat (match goal with
          | |- context [String.eqb chart_type ?o] =>
              destruct (String.eqb chart_type o)
          end; [reflexivity|]).
  reflexivity.
Qed.

Lemma table_area_run (df : DataFrame) (s : Proc) :
  result (table_area df s) = Ret tt /\ final (table_area df s) = s /\
  forall e, In e (emitted (table_area df s)) -> drawn_family e = None.
Proof.
  split; [reflexivity|]. split; [reflexivity|].
  intros e He. cbn in He.
  repeat (destruct He as [<- | He]; [reflexivity|]). destruct He.
Qed.

Lemma plotly_area_run (df : DataFrame) (s : Proc) :
  result (plotly_area df s) = Ret tt /\ final (plotly_area df s) = s /\
  forall e, In e (emitted (plotly_area df s)) ->
            forall rc, element_ok rc e.
Proof.
  split; [reflexivity|]. split; [reflexivity|].
  intros e He rc. cbn in He.
  repeat (destruct He as [<- | He]; [reflexivity|]). destruct He.
Qed.

Lemma for_each_write_run (fonts : list string) (s : Proc) :
  for_each fonts (fun font => st_write ("- " +:+ font)) s =
    mkRun (Ret tt) s (map (fun font => ElText Write ("- " +:+ font)) fonts).
Proof.
  induction fonts as [|font rest IH]; [reflexivity|].
  cbn [for_each]. rewrite (run_bind _ _ _ tt) by reflexivity.
  unfold st_write in *. rewrite run_emit. cbn [final emitted result].
  rewrite IH. reflexivity.
Qed.

(** The expander leaves the state alone and shows text only; it raises
    exactly when [rcParams] has no ['font.family'] key. *)
Lemma font_info_run (host : Host) (font_name : option string) (s : Proc) :
  final (font_info host font_name s) = s /\
  forall e, In e (emitted (font_info host font_name s)) ->
            drawn_family e = None.
Proof.
  unfold font_info.
  rewrite (run_bind _ _ _ tt) by reflexivity.
  rewrite (run_bind _ _ _ tt) by reflexivity.
  rewrite (run_bind _ _ _ tt) by reflexivity.
  unfold st_markdown, st_write. rewrite !run_emit.
  cbn [final emitted result].
  destruct (rcParams s !! "font.family") as [family|] eqn:F.
  - rewrite (run_bind (rc_get _) _ _ family) by (by rewrite run_rc_get, F).
    rewrite run_rc_get, F. cbn [result final emitted].
    rewrite (run_bind _ _ _ tt) by reflexivity.
    rewrite run_emit. cbn [final emitted result].
    destruct (marker_fonts host) as [|m ms].
    + split; [reflexivity|]. intros e He. cbn in He.
      repeat (destruct He as [<- | He]; [reflexivity|]). destruct He.
    + rewrite (run_bind _ _ _ tt) by reflexivity.
      rewrite run_emit. fold st_write. rewrite for_each_write_run.
      split; [reflexivity|]. intros e He. cbn in He.
      repeat (destruct He as [<- | He]; [reflexivity|]).
      apply in_map_iff in He. destruct He as (f & <- & _). reflexivity.
  - rewrite run_bind_raise by (by rewrite run_rc_get, F).
    rewrite run_rc_get, F. cbn [result final emitted].
    split; [reflexivity|]. intros e He. cbn in He.
    repeat (destruct He as [<- | He]; [reflexivity|]). destruct He.
Qed.

Lemma cached_setup_returns (host : Host) (s : Proc) :
  exists v, result (cached_setup_korean_font host s) = Ret v.
Proof.
  destruct (resource_cache s) as [[v els]|] eqn:Hc.
  - exists v. by rewrite (cached_setup_hit _ _ _ _ Hc).
  - destruct (cached_setup_miss host s Hc) as (v & _ & ->). by exists v.
Qed.

(** A run of [main], block by block: only the resolver touches the
    process state. *)
Lemma main_run (host : Host) (choice : nat) (s : Proc) (v : option string) :
  result (cached_setup_korean_font host s) = Ret v ->
  final (main host choice s) = final (cached_setup_korean_font host s) /\
  emitted (main host choice s) =
    emitted (cached_setup_korean_font host s) ++
    page_head ++
    emitted (chart_area (chosen choice) data
               (final (cached_setup_korean_font host s))) ++
    emitted (table_area data (final (cached_setup_korean_font host s))) ++
    emitted (plotly_area data (final (cached_setup_korean_font host s))) ++
    emitted (font_info host v (final (cached_setup_korean_font host s))).
Proof.
  intros Hv. unfold main.
  rewrite (run_bind _ _ _ v Hv).
  set (s1 := final (cached_setup_korean_font host s)).
  rewrite (run_bind _ _ _ tt) by reflexivity.
  rewrite (run_bind _ _ _ tt) by reflexivity.
  rewrite (run_bind _ _ _ tt) by reflexivity.
  rewrite (run_bind _ _ _ (chosen choice)) by reflexivity.
  change (final (st_title _ s1)) with s1.
  change (final (st_markdown _ s1)) with s1.
  change (final (st_sidebar_header _ s1)) with s1.
  change (final (st_sidebar_selectbox _ _ choice s1)) with s1.
  cbv zeta.
  rewrite (run_bind (chart_area _ _) _ _ tt) by (by rewrite chart_area_run).
  replace (final (chart_area (chosen choice) data s1)) with s1
    by (by rewrite chart_area_run).
  destruct (table_area_run data s1) as (Rt & Ft & _).
  rewrite (run_bind (table_area _) _ _ tt Rt), Ft.
  destruct (plotly_area_run data s1) as (Rp & Fp & _).
  rewrite (run_bind (plotly_area _) _ _ tt Rp), Fp.
  cbn [final emitted].
  split; [apply font_info_run | reflexivity].
Qed.

(** ** Charts and the global configuration *)

Lemma setup_emits_text (host : Host) (s : Proc) (e : Element) :
  In e (emitted (setup_korean_font host s)) -> drawn_family e = None.
Proof.
  destruct (scan_candidates (available_fonts host)
              (font_candidates (platform_system host)) None) as [font|] eqn:E.
  - rewrite (setup_matched _ _ _ E). intros [<- | []]. reflexivity.
  - pose proof (proj1 (scan_candidates_None _ _) E) as Hno.
    rewrite (setup_fallback _ _ Hno).
    destruct (font_files host !! font_path) as [[family| |]|] eqn:F.
    + rewrite (load_bundled_valid _ _ _ F).
      intros [<- | [<- | []]]; reflexivity.
    + rewrite load_bundled_unusable by (red; tauto).
      intros [<- | [<- | []]]; reflexivity.
    + rewrite load_bundled_unusable by (red; tauto).
      intros [<- | [<- | []]]; reflexivity.
    + rewrite load_bundled_unusable by (red; tauto).
      intros [<- | [<- | []]]; reflexivity.
Qed.

Lemma not_drawn_ok (rc : gmap string rcval) (e : Element) :
  drawn_family e = None -> element_ok rc e.
Proof. destruct e; simpl; (discriminate || trivial). Qed.

Lemma chosen_is_drawn (choice : nat) :
  exists fig, drawn_figure (chosen choice) data = Some fig.
Proof.
  do 6 (destruct choice as [|choice]; [eexists; reflexivity|]).
  eexists; reflexivity.
Qed.

Section Session.

(** A process that starts in [s0] with nothing cached. *)
Variable host : Host.
Variable s0 : Proc.
Hypothesis fresh_cache : resource_cache s0 = None.

Let resolved := setup_korean_font host s0.

Lemma settled_cached_setup (s : Proc) :
  settled host s0 s ->
  exists v,
    result resolved = Ret v /\
    cached_setup_korean_font host s =
      mkRun (Ret v)
        (mkProc (rcParams (final resolved)) (Some (v, emitted resolved)))
        (emitted resolved).
Proof.
  intros [-> | (v & Hv & ->)].
  - apply cached_setup_miss, fresh_cache.
  - exists v. split; [done|]. by apply cached_setup_hit.
Qed.

(** One run of [main] from a settled state: the state stays settled, the
    configuration is the resolver's, and every element is in order. *)
Lemma main_settled (s : Proc) (choice : nat) :
  settled host s0 s ->
  settled host s0 (final (main host choice s)) /\
  rcParams (final (main host choice s)) = rcParams (final resolved) /\
  (forall e, In e (emitted (main host choice s)) ->
     element_ok (rcParams (final resolved)) e) /\
  (exists fig,
     In (ElPyplot fig (rcParams (final resolved)))
       (emitted (main host choice s))).
Proof.
  intros Hs.
  destruct (settled_cached_setup s Hs) as (v & Hv & Hrun).
  assert (result (cached_setup_korean_font host s) = Ret v) as Hres
    by (by rewrite Hrun).
  destruct (main_run host choice s v Hres) as (Hfin & Hem).
  rewrite Hfin, Hem, Hrun. cbn [final emitted rcParams].
  set (rc := rcParams (final resolved)).
  set (s1 := mkProc rc _).
  split; [|split; [reflexivity|split]].
  - right. by exists v.
  - intros e. rewrite !in_app_iff.
    intros [He | [He | [He | [He | [He | He]]]]].
    + by apply not_drawn_ok, (setup_emits_text host s0).
    + apply not_drawn_ok. cbn in He.
      repeat (destruct He as [<- | He]; [reflexivity|]). destruct He.
    + rewrite chart_area_run in He. cbn [emitted] in He.
      destruct He as [<- | He]; [exact I|].
      destruct (drawn_figure (chosen choice) data); [|destruct He].
      destruct He as [<- | []]. reflexivity.
    + by apply not_drawn_ok, (proj2 (proj2 (table_area_run data s1))).
    + by apply (proj2 (proj2 (plotly_area_run data s1))).
    + by apply not_drawn_ok, (proj2 (font_info_run host v s1)).
  - destruct (chosen_is_drawn choice) as [fig Hfig]. exists fig.
    rewrite !in_app_iff. right. right. left.
    rewrite chart_area_run, Hfig. cbn. tauto.
Qed.

Lemma session_settled (choices : list nat) (s : Proc) :
  settled host s0 s -> settled host s0 (session host choices s).
Proof.
  revert s. induction choices as [|choice rest IH]; intros s Hs; [done|].
  cbn [session]. apply IH. by apply main_settled.
Qed.

(** In a settled state the decorated function returns the name that
    [rcParams] holds. *)
Lemma cached_name_is_configured_family (s : Proc) (font : string) :
  settled host s0 s ->
  result (cached_setup_korean_font host s) = Ret (Some font) ->
  rcParams (final (cached_setup_korean_font host s)) !! "font.family" =
    Some (RcList (validate_stringlist font)).
Proof.
  intros Hs. destruct (settled_cached_setup s Hs) as (v & Hv & ->).
  cbn [result final rcParams]. intros [= ->]. unfold resolved in *.
  rewrite (setup_result_family _ _ _ Hv). apply configured_family.
Qed.

End Session.





(** ** The pie chart and the population total *)

(** C7 as stated fails: the eight populations sum to 22,860,013, so no
    run shows wedges summing to 24,860,013 or a metric of that value. *)
Lemma pie_total_is_not_24860013 :
  ~ pie_run_total linux_host fresh_proc 24860013.
Proof.
  intros (wedges & rc & Hin & _ & _ & Hsum & _).
  vm_compute in Hin.
  repeat (destruct Hin as [Hin | Hin]; [try discriminate Hin|]);
    [|destruct Hin].
  injection Hin as <- _. vm_compute in Hsum. discriminate Hsum.
Qed.

(** C7, as amended.  With the pie chart selected, whatever the host and
    the process state, the run draws a pie of eight wedges labelled with
    the eight regions whose values sum to 22,860,013, and the metric
    "총 인구수" shows that same total, "22,860,013명". *)
Theorem pie_wedges_sum_to_metric_total (host : Host) (s : Proc) :
  pie_run_total host s 22860013 /\
  series_sum (col_population data) = 22860013 /\
  format_comma 22860013 +:+ "명" = "22,860,013명".
Proof.
  split; [|split; reflexivity].
  destruct (cached_setup_returns host s) as [v Hv].
  destruct (main_run host pie_choice s v Hv) as (_ & Hem).
  exists (Wedges (col_region data) (col_population data) palette),
         (rcParams (final (cached_setup_korean_font host s))).
  rewrite Hem, !in_app_iff.
  split; [|split; [reflexivity|split; [reflexivity|split; [reflexivity|]]]].
  - right. right. left. rewrite chart_area_run. right. left. reflexivity.
  - right. right. right. left. cbn. do 8 right. left. reflexivity.
Qed.

(** ** The diagnostic panel *)

Lemma prefix_spec (p s : string) :
  String.prefix p s = true <-> exists rest, s = p +:+ rest.
Proof.
  revert s. induction p as [|a p IH]; intros [|b s]; simpl.
  - split; [intros _; by exists "" | reflexivity].
  - split; [intros _; by exists (String b s) | reflexivity].
  - split; [discriminate | intros [r [=]]].
  - destruct (Ascii.ascii_dec a b) as [-> | Hne].
    + rewrite IH. split.
      * intros [r ->]. by exists r.
      * intros [r [= ->]]. by exists r.
    + split; [discriminate | intros [r [= Hab _]]; by destruct Hne].
Qed.

Lemma str_contains_unfold (sub s : string) :
  Py.str_contains sub s =
    if String.prefix sub s then true
    else match s with
         | EmptyString => false
         | String _ s' => Py.str_contains sub s'
         end.
Proof. by destruct s. Qed.

(** Python's [sub in s] is the substring relation. *)
Lemma str_contains_spec (sub s : string) :
  Py.str_contains sub s = true <-> occurs_in sub s.
Proof.
  split.
  - induction s as [|c s IH]; rewrite str_contains_unfold;
      destruct (String.prefix sub _) eqn:P.
    + intros _. apply prefix_spec in P as [r ->]. by exists "", r.
    + discriminate.
    + intros _. apply prefix_spec in P as [r ->]. by exists "", r.
    + intros H. destruct (IH H) as (before & after & ->).
      by exists (String c before), after.
  - intros (before & after & ->).
    induction before as [|c before IH]; rewrite str_contains_unfold.
    + assert (String.prefix sub ("" +:+ sub +:+ after) = true) as ->; [|done].
      apply prefix_spec. by exists after.
    + destruct (String.prefix sub _); [done | exact IH].
Qed.

Lemma has_marker_spec (font_name : string) :
  has_marker font_name = true <->
  occurs_in "Gothic" font_name \/ occurs_in "Noto" font_name \/
  occurs_in "Malgun" font_name.
Proof.
  unfold has_marker. rewrite !orb_true_iff, !str_contains_spec. tauto.
Qed.

Lemma marker_fonts_filter (host : Host) :
  marker_fonts host = List.filter has_marker (available_fonts host).
Proof.
  unfold marker_fonts, available_fonts.
  induction (ttflist host) as [|f fs IH]; simpl; [done|].
  destruct (has_marker (name f)); simpl; by rewrite IH.
Qed.

Lemma font_info_emitted (host : Host) (font_name : option string) (s : Proc)
    (family : rcval) :
  rcParams s !! "font.family" = Some family ->
  result (font_info host font_name s) = Ret tt /\
  emitted (font_info host font_name s) =
    [ElText Markdown "---";
     ElText Write ("**현재 시스템:** " +:+ platform_system host);
     ElText Write ("**설정된 폰트:** " +:+ Py.str font_name);
     ElText Write ("**Matplotlib 폰트 패밀리:** " +:+ rc_str family)] ++
    match marker_fonts host with
    | [] => []
    | _ :: _ =>
        ElText Write "**사용 가능한 한글 폰트:**" ::
        map (fun font => ElText Write ("- " +:+ font)) (panel_fonts host)
    end.
Proof.
  intros F. unfold font_info.
  rewrite (run_bind _ _ _ tt) by reflexivity.
  rewrite (run_bind _ _ _ tt) by reflexivity.
  rewrite (run_bind _ _ _ tt) by reflexivity.
  unfold st_markdown, st_write. rewrite !run_emit.
  cbn [final emitted result].
  rewrite (run_bind (rc_get _) _ _ family) by (by rewrite run_rc_get, F).
  rewrite run_rc_get, F. cbn [result final emitted].
  rewrite (run_bind _ _ _ tt) by reflexivity.
  rewrite run_emit. cbn [final emitted result].
  destruct (marker_fonts host) as [|m ms]; [done|].
  rewrite (run_bind _ _ _ tt) by reflexivity.
  rewrite run_emit. fold st_write. rewrite for_each_write_run. done.
Qed.

(** C9. The names listed in the diagnostic panel are the first ten, in
    the order of the font manager's list, of the installed font names in
    which "Gothic", "Noto" or "Malgun" occurs: the list is a prefix of
    those names, it is all of them or has length ten, every listed name
    is an installed name with a marker, and the expander writes one line
    per listed name after its header. *)
Theorem panel_lists_first_ten_marker_fonts
    (host : Host) (font_name : option string) (s : Proc) (family : rcval) :
  rcParams s !! "font.family" = Some family ->
  panel_fonts host = firstn 10 (List.filter has_marker (available_fonts host)) /\
  (forall n, has_marker n = true <->
             occurs_in "Gothic" n \/ occurs_in "Noto" n \/
             occurs_in "Malgun" n) /\
  (exists rest,
     List.filter has_marker (available_fonts host) = panel_fonts host ++ rest /\
     (rest = [] \/ length (panel_fonts host) = 10%nat)) /\
  (forall n, In n (panel_fonts host) ->
     In n (available_fonts host) /\
     (occurs_in "Gothic" n \/ occurs_in "Noto" n \/ occurs_in "Malgun" n)) /\
  (exists before,
     emitted (font_info host font_name s) =
       before ++
       match panel_fonts host with
       | [] => []
       | _ :: _ =>
           ElText Write "**사용 가능한 한글 폰트:**" ::
           map (fun font => ElText Write ("- " +:+ font)) (panel_fonts host)
       end).
Proof.
  intros F.
  assert (panel_fonts host =
          firstn 10 (List.filter has_marker (available_fonts host))) as Hp
    by (unfold panel_fonts; by rewrite marker_fonts_filter).
  split; [exact Hp|]. split; [apply has_marker_spec|].
  split; [|split].
  - exists (skipn 10 (List.filter has_marker (available_fonts host))).
    rewrite Hp, firstn_skipn. split; [done|].
    destruct (Nat.le_gt_cases
                (length (List.filter has_marker (available_fonts host))) 10)
      as [Hle | Hgt].
    + left. by apply skipn_all2.
    + right. rewrite length_firstn. lia.
  - intros n Hn. rewrite Hp in Hn.
    assert (In n (List.filter has_marker (available_fonts host))) as Hf.
    { rewrite <- (firstn_skipn 10 (List.filter _ _)).
      apply in_or_app. by left. }
    apply filter_In in Hf as [Hin Hm]. split; [exact Hin|].
    by apply has_marker_spec.
  - destruct (font_info_emitted host font_name s family F) as (_ & ->).
    eexists. f_equal. unfold panel_fonts.
    by destruct (marker_fonts host).
Qed.

Lemma panel_lists_first_ten_marker_fonts_witness :
  panel_fonts crowded_host =
    ["Noto Sans"; "Noto Serif"; "Nanum Gothic"; "Malgun Gothic";
     "Noto Sans CJK KR"; "Noto Sans CJK JP"; "Noto Sans"; "Century Gothic";
     "Noto Mono"; "Noto Color Emoji"] /\
  exists rest,
    List.filter has_marker (available_fonts crowded_host) =
      panel_fonts crowded_host ++ rest /\
    (rest = [] \/ length (panel_fonts crowded_host) = 10%nat).
Proof.
  destruct (panel_lists_first_ten_marker_fonts crowded_host None fresh_proc
              (RcList ["sans-serif"]))
    as (Hp & _ & Hrest & _); [reflexivity|].
  split; [rewrite Hp; reflexivity | exact Hrest].
Defined.

(** * Further properties of the script *)

(** ** The resolver: what it never does *)

Lemma load_bundled_by_file (host host' : Host) (s : Proc) :
  font_files host !! font_path = font_files host' !! font_path ->
  load_bundled_font host s = load_bundled_font host' s.
Proof.
  intros Hfile.
  destruct (font_files host !! font_path) as [[family| |]|] eqn:F.
  - rewrite (load_bundled_valid host _ _ F).
    by rewrite (load_bundled_valid host' _ family).
  - rewrite (load_bundled_unusable host) by (red; tauto).
    rewrite (load_bundled_unusable host'); [done|]. red. rewrite <- Hfile. tauto.
  - rewrite (load_bundled_unusable host) by (red; tauto).
    rewrite (load_bundled_unusable host'); [done|]. red. rewrite <- Hfile. tauto.
  - rewrite (load_bundled_unusable host) by (red; tauto).
    rewrite (load_bundled_unusable host'); [done|]. red. rewrite <- Hfile. tauto.
Qed.

(** X1. No exception escapes the resolver: whatever the host's fonts and
    whatever sits at the bundled font's path, the body returns normally,
    and so does the decorated function from any process state. *)
Theorem resolver_never_raises (host : Host) (s : Proc) :
  (exists v, result (setup_korean_font host s) = Ret v) /\
  (exists v, result (cached_setup_korean_font host s) = Ret v).
Proof.
  assert (exists v, result (setup_korean_font host s) = Ret v) as Hbody.
  { destruct (setup_outcomes host s)
      as [(f & _ & -> & _) | [(_ & f & _ & -> & _) | (_ & _ & -> & _)]];
      eauto. }
  split; [exact Hbody|].
  unfold cached_setup_korean_font, cache_resource.
  destruct (resource_cache s) as [[v els]|]; [by exists v|].
  destruct Hbody as [v ->]. by exists v.
Qed.

(** X2. The resolver writes at most the keys ['font.family'] and
    ['axes.unicode_minus']: every other key of [rcParams] keeps its value
    (or stays absent), and the cache slot is not touched by the body. *)
Theorem resolver_writes_two_keys_only (host : Host) (s : Proc) (key : string) :
  key <> "font.family" -> key <> "axes.unicode_minus" ->
  rcParams (final (setup_korean_font host s)) !! key = rcParams s !! key /\
  resource_cache (final (setup_korean_font host s)) = resource_cache s.
Proof.
  intros Hf Hm. split.
  - destruct (setup_outcomes host s)
      as [(f & _ & _ & ->) | [(_ & f & _ & _ & ->) | (_ & _ & _ & ->)]].
    + unfold configured. by rewrite !lookup_insert_ne.
    + unfold configured. by rewrite !lookup_insert_ne.
    + done.
  - destruct (scan_candidates (available_fonts host)
                (font_candidates (platform_system host)) None)
      as [font|] eqn:E.
    + by rewrite (setup_matched _ _ _ E).
    + pose proof (proj1 (scan_candidates_None _ _) E) as Hno.
      rewrite (setup_fallback _ _ Hno).
      destruct (font_files host !! font_path) as [[family| |]|] eqn:F.
      * by rewrite (load_bundled_valid _ _ _ F).
      * by rewrite load_bundled_unusable by (red; tauto).
      * by rewrite load_bundled_unusable by (red; tauto).
      * by rewrite load_bundled_unusable by (red; tauto).
Qed.

Lemma resolver_writes_two_keys_only_witness :
  rcParams (final (setup_korean_font windows_host stocked_proc)) !! "font.size"
    = Some (RcStr "10.0") /\
  resource_cache (final (setup_korean_font windows_host stocked_proc)) = None.
Proof.
  apply (resolver_writes_two_keys_only windows_host stocked_proc "font.size");
    discriminate.
Defined.

(** X3. An installed candidate takes precedence over the bundled file:
    when a candidate of the platform's list is installed, the run is the
    same whatever font files are on disk; the file is never looked at. *)
Theorem installed_candidate_ignores_bundled_file
    (host : Host) (files : gmap string FontFile) (s : Proc) :
  (exists c, In c (font_candidates (platform_system host)) /\
             In c (available_fonts host)) ->
  setup_korean_font (with_font_files host files) s = setup_korean_font host s.
Proof.
  intros (c & Hc & Hin).
  destruct (scan_candidates (available_fonts host)
              (font_candidates (platform_system host)) None)
    as [font|] eqn:E.
  - rewrite (setup_matched host _ _ E).
    by rewrite (setup_matched (with_font_files host files) s font).
  - destruct (proj1 (scan_candidates_None _ _) E c Hc Hin).
Qed.

Lemma installed_candidate_ignores_bundled_file_witness :
  setup_korean_font
    (with_font_files linux_host {[ font_path := ValidFont "Noto Sans KR" ]})
    fresh_proc
  = setup_korean_font linux_host fresh_proc.
Proof.
  apply (installed_candidate_ignores_bundled_file linux_host
           {[ font_path := ValidFont "Noto Sans KR" ]} fresh_proc).
  exists "Noto Sans CJK KR". simpl. tauto.
Defined.

(** X4. The resolver treats the font manager's list as a set of names:
    two hosts with the same platform, the same bundled file and the same
    installed names, in whatever order and however often repeated, give
    the same run. *)
Theorem resolver_ignores_font_order (host host' : Host) (s : Proc) :
  platform_system host = platform_system host' ->
  font_files host !! "NotoSansKR-Regular.ttf" =
    font_files host' !! "NotoSansKR-Regular.ttf" ->
  (forall x, In x (available_fonts host) <-> In x (available_fonts host')) ->
  setup_korean_font host s = setup_korean_font host' s.
Proof.
  intros Hsys Hfile Hset.
  pose proof (scan_candidates_ext _ _
                (font_candidates (platform_system host)) Hset) as Hscan.
  destruct (scan_candidates (available_fonts host)
              (font_candidates (platform_system host)) None)
    as [font|] eqn:E.
  - rewrite (setup_matched host _ _ E).
    rewrite (setup_matched host' s font); [done|]. by rewrite <- Hsys.
  - pose proof (proj1 (scan_candidates_None _ _) E) as Hno.
    rewrite (setup_fallback host _ Hno).
    rewrite (setup_fallback host' s).
    + by apply load_bundled_by_file.
    + unfold no_candidate. rewrite <- Hsys.
      exact (proj1 (scan_candidates_None _ _) (eq_sym Hscan)).
Qed.

Lemma resolver_ignores_font_order_witness :
  setup_korean_font linux_host fresh_proc =
  setup_korean_font linux_host_reordered fresh_proc.
Proof.
  apply (resolver_ignores_font_order linux_host linux_host_reordered
           fresh_proc); [reflexivity | reflexivity |].
  intros x. simpl. tauto.
Defined.

(** ** The resolver: outcomes and what the user is told *)

(** X5. The status messages tell the outcome apart: a warning is shown
    exactly when no candidate of the platform's list is installed, an
    error exactly when the function returns [None], and a success message
    exactly when it returns a font name. *)
Theorem status_messages_match_outcome (host : Host) (s : Proc) :
  (shows Warning (emitted (setup_korean_font host s)) <-> no_candidate host) /\
  (shows Error (emitted (setup_korean_font host s)) <->
     result (setup_korean_font host s) = Ret None) /\
  (shows Success (emitted (setup_korean_font host s)) <->
     exists font, result (setup_korean_font host s) = Ret (Some font)).
Proof.
  unfold shows.
  destruct (scan_candidates (available_fonts host)
              (font_candidates (platform_system host)) None)
    as [font|] eqn:E.
  - rewrite (setup_matched _ _ _ E). cbn [emitted result].
    apply scan_candidates_Some in E.
    destruct E as (higher & lower & Hsplit & Hin & _).
    split; [|split]; split.
    + intros (body & [[=] | []]).
    + intros Hno. exfalso. apply (Hno font); [|exact Hin].
      rewrite Hsplit. apply in_or_app. right. by left.
    + intros (body & [[=] | []]).
    + discriminate.
    + intros _. by exists font.
    + intros _. eexists. left. reflexivity.
  - pose proof (proj1 (scan_candidates_None _ _) E) as Hno.
    rewrite (setup_fallback _ _ Hno).
    destruct (font_files host !! font_path) as [[family| |]|] eqn:F.
    + rewrite (load_bundled_valid _ _ _ F). cbn [emitted result].
      split; [|split]; split.
      * done.
      * intros _. eexists. left. reflexivity.
      * intros (body & [[=] | [[=] | []]]).
      * discriminate.
      * intros _. by exists family.
      * intros _. eexists. right. left. reflexivity.
    + rewrite load_bundled_unusable by (red; tauto). cbn [emitted result].
      split; [|split]; split.
      * done.
      * intros _. eexists. left. reflexivity.
      * done.
      * intros _. eexists. right. left. reflexivity.
      * intros (body & [[=] | [[=] | []]]).
      * intros (font & [=]).
    + rewrite load_bundled_unusable by (red; tauto). cbn [emitted result].
      split; [|split]; split.
      * done.
      * intros _. eexists. left. reflexivity.
      * done.
      * intros _. eexists. right. left. reflexivity.
      * intros (body & [[=] | [[=] | []]]).
      * intros (font & [=]).
    + rewrite load_bundled_unusable by (red; tauto). cbn [emitted result].
      split; [|split]; split.
      * done.
      * intros _. eexists. left. reflexivity.
      * done.
      * intros _. eexists. right. left. reflexivity.
      * intros (body & [[=] | [[=] | []]]).
      * intros (font & [=]).
Qed.

(** X6. The function returns [None] only when it has to: no candidate
    of the platform's list is installed and the bundled file is missing,
    unreadable or malformed.  In that case nothing was written: a failed
    attempt never leaves a half-applied configuration. *)
Theorem resolver_fails_only_when_it_must (host : Host) (s : Proc) :
  result (setup_korean_font host s) = Ret None ->
  (forall c, In c (font_candidates (platform_system host)) ->
             ~ In c (available_fonts host)) /\
  (font_files host !! "NotoSansKR-Regular.ttf" = None \/
   font_files host !! "NotoSansKR-Regular.ttf" = Some Unreadable \/
   font_files host !! "NotoSansKR-Regular.ttf" = Some Malformed) /\
  final (setup_korean_font host s) = s.
Proof.
  destruct (setup_outcomes host s)
    as [(f & _ & -> & _) | [(_ & f & _ & -> & _) | (Hno & Hbad & _ & Hfin)]].
  - discriminate.
  - discriminate.
  - intros _. split; [exact Hno|]. split; [exact Hbad | exact Hfin].
Qed.

Lemma resolver_fails_only_when_it_must_witness :
  (forall c, In c (font_candidates "Linux") -> ~ In c ["FreeSans"]) /\
  (font_files bare_host !! "NotoSansKR-Regular.ttf" = None \/
   font_files bare_host !! "NotoSansKR-Regular.ttf" = Some Unreadable \/
   font_files bare_host !! "NotoSansKR-Regular.ttf" = Some Malformed) /\
  final (setup_korean_font bare_host fresh_proc) = fresh_proc.
Proof.
  apply (resolver_fails_only_when_it_must bare_host fresh_proc).
  reflexivity.
Defined.

(** X7. A returned name has one of two origins: it is the first installed
    candidate of the platform's list, or no candidate of that list is
    installed and it is the family name of the bundled file. *)
Theorem returned_name_origin (host : Host) (s : Proc) (font : string) :
  result (setup_korean_font host s) = Ret (Some font) ->
  first_present (font_candidates (platform_system host))
    (available_fonts host) font \/
  ((forall c, In c (font_candidates (platform_system host)) ->
              ~ In c (available_fonts host)) /\
   font_files host !! "NotoSansKR-Regular.ttf" = Some (ValidFont font)).
Proof.
  destruct (setup_outcomes host s)
    as [(f & Hf & -> & _) | [(Hno & f & Hfile & -> & _) | (_ & _ & -> & _)]].
  - intros [= <-]. by left.
  - intros [= <-]. right. by split.
  - discriminate.
Qed.

Lemma returned_name_origin_witness :
  first_present (font_candidates "Linux") ["FreeSans"] "Noto Sans KR" \/
  ((forall c, In c (font_candidates "Linux") -> ~ In c ["FreeSans"]) /\
   font_files bundled_host !! "NotoSansKR-Regular.ttf" =
     Some (ValidFont "Noto Sans KR")).
Proof.
  apply (returned_name_origin bundled_host fresh_proc "Noto Sans KR").
  reflexivity.
Defined.

(** ** Memoisation across calls and reruns *)

Lemma cached_setup_fills_cache (host : Host) (s : Proc) :
  exists v els,
    result (cached_setup_korean_font host s) = Ret v /\
    resource_cache (final (cached_setup_korean_font host s)) = Some (v, els).
Proof.
  destruct (resource_cache s) as [[v els]|] eqn:Hc.
  - exists v, els. by rewrite (cached_setup_hit _ _ _ _ Hc).
  - destruct (cached_setup_miss host s Hc) as (v & _ & ->).
    by eexists _, _.
Qed.

(** X8. Once the decorated function has been called, every later call
    is answered from the cache, even on a host whose platform, fonts or
    font files have changed since: it returns what the first call
    returned and leaves the process state exactly as it is. *)
Theorem later_calls_answered_from_cache (host host' : Host) (s : Proc) :
  let first := cached_setup_korean_font host s in
  let later := cached_setup_korean_font host' (final first) in
  result later = result first /\ final later = final first.
Proof.
  cbv zeta.
  destruct (cached_setup_fills_cache host s) as (v & els & Hres & Hcache).
  rewrite (cached_setup_hit host' _ _ _ Hcache). by rewrite Hres.
Qed.

(** The installed fonts are gone on the second host; the answer stays. *)
Example stale_answer_after_fonts_change :
  result (cached_setup_korean_font bare_host
            (final (cached_setup_korean_font linux_host fresh_proc)))
  = Ret (Some "Noto Sans CJK KR").
Proof. reflexivity. Qed.

(** X9. After the first run of the script the process state no longer
    changes: any further run, with any chart selected and even on a host
    that has changed, ends in the state the first run ended in. *)
Theorem rerun_leaves_state (host host' : Host) (choice choice' : nat)
    (s : Proc) :
  final (main host' choice' (final (main host choice s))) =
  final (main host choice s).
Proof.
  destruct (cached_setup_fills_cache host s) as (v & els & Hres & Hcache).
  destruct (main_run host choice s v Hres) as (-> & _).
  pose proof (cached_setup_hit host' _ _ _ Hcache) as Hhit.
  assert (result (cached_setup_korean_font host'
                    (final (cached_setup_korean_font host s))) = Ret v)
    as Hres' by (by rewrite Hhit).
  destruct (main_run host' choice' _ v Hres') as (-> & _).
  by rewrite Hhit.
Qed.

(** ** What a run of [main] shows *)

Lemma main_result (host : Host) (choice : nat) (s : Proc) (v : option string) :
  result (cached_setup_korean_font host s) = Ret v ->
  result (main host choice s) =
    result (font_info host v (final (cached_setup_korean_font host s))).
Proof.
  intros Hv. unfold main.
  rewrite (run_bind _ _ _ v Hv).
  set (s1 := final (cached_setup_korean_font host s)).
  rewrite (run_bind _ _ _ tt) by reflexivity.
  rewrite (run_bind _ _ _ tt) by reflexivity.
  rewrite (run_bind _ _ _ tt) by reflexivity.
  rewrite (run_bind _ _ _ (chosen choice)) by reflexivity.
  change (final (st_title _ s1)) with s1.
  change (final (st_markdown _ s1)) with s1.
  change (final (st_sidebar_header _ s1)) with s1.
  change (final (st_sidebar_selectbox _ _ choice s1)) with s1.
  cbv zeta.
  rewrite (run_bind (chart_area _ _) _ _ tt) by (by rewrite chart_area_run).
  replace (final (chart_area (chosen choice) data s1)) with s1
    by (by rewrite chart_area_run).
  destruct (table_area_run data s1) as (Rt & Ft & _).
  rewrite (run_bind (table_area _) _ _ tt Rt), Ft.
  destruct (plotly_area_run data s1) as (Rp & Fp & _).
  rewrite (run_bind (plotly_area _) _ _ tt Rp), Fp.
  reflexivity.
Qed.

(** X12. When no installed font name contains "Gothic", "Noto" or
    "Malgun" (in particular when no font is installed at all), the
    diagnostic panel shows its separator and three fixed lines and
    nothing else: no list header and no font line. *)
Theorem panel_without_marker_fonts
    (host : Host) (font_name : option string) (s : Proc) (family : rcval) :
  rcParams s !! "font.family" = Some family ->
  (forall n, In n (available_fonts host) -> has_marker n = false) ->
  emitted (font_info host font_name s) =
    [ElText Markdown "---";
     ElText Write ("**현재 시스템:** " +:+ platform_system host);
     ElText Write ("**설정된 폰트:** " +:+ Py.str font_name);
     ElText Write ("**Matplotlib 폰트 패밀리:** " +:+ rc_str family)].
Proof.
  intros Hfam Hnone.
  destruct (font_info_emitted host font_name s family Hfam) as (_ & ->).
  assert (marker_fonts host = []) as ->; [|reflexivity].
  rewrite marker_fonts_filter.
  induction (available_fonts host) as [|n ns IH]; [done|].
  cbn [List.filter]. rewrite (Hnone n) by (by left).
  apply IH. intros x Hx. apply Hnone. by right.
Qed.

Lemma panel_without_marker_fonts_witness :
  emitted (font_info bare_host None fresh_proc) =
    [ElText Markdown "---";
     ElText Write ("**현재 시스템:** " +:+ "Linux");
     ElText Write ("**설정된 폰트:** " +:+ "None");
     ElText Write ("**Matplotlib 폰트 패밀리:** " +:+ "['sans-serif']")].
Proof.
  apply (panel_without_marker_fonts bare_host None fresh_proc
           (RcList ["sans-serif"])).
  - reflexivity.
  - intros n [<- | []]. reflexivity.
Defined.

(** ** Number formatting and column summaries *)

Lemma uint_digits_no_comma (d : Decimal.uint) :
  forallb (fun c => negb (Ascii.eqb c comma))
    (String.list_ascii_of_string (NilEmpty.string_of_uint d)) = true.
Proof. induction d; simpl; auto. Qed.

Lemma digits_no_comma (d : Decimal.uint) :
  forallb (fun c => negb (Ascii.eqb c comma))
    (String.list_ascii_of_string (NilZero.string_of_uint d)) = true.
Proof.
  destruct d; try apply (uint_digits_no_comma (_ _)). reflexivity.
Qed.

Lemma group3_step (a b c d : Ascii.ascii) (rest : list Ascii.ascii) :
  group3 (a :: b :: c :: d :: rest) =
    a :: b :: c :: comma :: group3 (d :: rest).
Proof. reflexivity. Qed.

(** Grouping adds commas and nothing else. *)
Lemma group3_strip (l : list Ascii.ascii) :
  forallb (fun c => negb (Ascii.eqb c comma)) l = true ->
  List.filter (fun c => negb (Ascii.eqb c comma)) (group3 l) = l.
Proof.
  remember (length l) as n eqn:Hn. revert l Hn.
  induction n as [n IH] using lt_wf_ind. intros l Hn Hall.
  destruct l as [|a [|b [|c [|d rest]]]];
    try (by apply forallb_filter_id).
  rewrite group3_step. cbn [forallb] in Hall.
  apply andb_prop in Hall as [Ha Hall].
  apply andb_prop in Hall as [Hb Hall].
  apply andb_prop in Hall as [Hc Hall].
  cbn [List.filter]. rewrite Ha, Hb, Hc.
  change (negb (Ascii.eqb comma comma)) with false. cbv iota.
  do 3 f_equal. apply (IH (length (d :: rest))); [|done|exact Hall].
  subst n. cbn [length]. lia.
Qed.

Lemma group3_length (l : list Ascii.ascii) :
  length (group3 l) = (length l + (length l - 1) / 3)%nat.
Proof.
  remember (length l) as n eqn:Hn. revert l Hn.
  induction n as [n IH] using lt_wf_ind. intros l Hn.
  destruct l as [|a [|b [|c [|d rest]]]]; subst n; try reflexivity.
  rewrite group3_step. cbn [length].
  rewrite (IH (length (d :: rest))) by (cbn [length]; (lia || done)).
  cbn [length].
  replace (S (S (S (S (length rest)))) - 1)%nat
    with (S (length rest) - 1 + 1 * 3)%nat by lia.
  rewrite Nat.div_add by discriminate. lia.
Qed.

(** X13. The comma format of an integer is its plain decimal rendering
    with separators added and nothing else changed: removing the commas
    from [f"{n:,}"] gives [f"{n}"], sign included, and for [n >= 0] a
    number of [d] digits gets [(d - 1) / 3] commas. *)
Theorem format_comma_adds_only_commas (n : Z) :
  strip_commas (format_comma n) = format_plain n /\
  (0 <= n ->
   String.length (format_comma n) =
     (String.length (format_plain n)
      + (String.length (format_plain n) - 1) / 3)%nat).
Proof.
  unfold format_comma, format_plain. cbv zeta.
  set (keep := fun c => negb (Ascii.eqb c comma)).
  assert (forall d,
            List.filter keep
              (rev (group3 (rev (String.list_ascii_of_string
                                   (NilZero.string_of_uint d))))) =
            String.list_ascii_of_string (NilZero.string_of_uint d)) as Hstrip.
  { intros d. rewrite List.filter_rev, group3_strip, rev_involutive; [done|].
    rewrite forallb_forall. intros c Hc. apply in_rev in Hc.
    revert c Hc. apply forallb_forall, digits_no_comma. }
  assert (forall d,
            String.length
              (String.string_of_list_ascii
                 (rev (group3 (rev (String.list_ascii_of_string
                                      (NilZero.string_of_uint d)))))) =
            (String.length (NilZero.string_of_uint d)
             + (String.length (NilZero.string_of_uint d) - 1) / 3)%nat)
    as Hlen.
  { intros d.
    assert (forall s, String.length s =
                      length (String.list_ascii_of_string s)) as Hl
      by (intros s; induction s; simpl; congruence).
    rewrite !Hl, String.list_ascii_of_string_of_list_ascii.
    by rewrite length_rev, group3_length, length_rev. }
  destruct n as [|p|p].
  - split; [reflexivity|]. intros _. reflexivity.
  - change (Z.pos p <? 0) with false. cbv iota.
    change (N.to_uint (Z.to_N (Z.abs (Z.pos p)))) with (Pos.to_uint p).
    change (Z.to_int (Z.pos p)) with (Decimal.Pos (Pos.to_uint p)).
    cbn [NilZero.string_of_int]. split.
    + unfold strip_commas.
      rewrite String.list_ascii_of_string_of_list_ascii. fold keep.
      by rewrite Hstrip, String.string_of_list_ascii_of_string.
    + intros _. apply Hlen.
  - change (Z.neg p <? 0) with true. cbv iota.
    change (N.to_uint (Z.to_N (Z.abs (Z.neg p)))) with (Pos.to_uint p).
    change (Z.to_int (Z.neg p)) with (Decimal.Neg (Pos.to_uint p)).
    cbn [NilZero.string_of_int]. split; [|intros H; lia].
    unfold strip_commas. fold keep.
    assert (forall s, List.filter keep (String.list_ascii_of_string ("-" +:+ s))
                      = Ascii.ascii_of_nat 45 ::
                        List.filter keep (String.list_ascii_of_string s))
      as -> by reflexivity.
    rewrite String.list_ascii_of_string_of_list_ascii, Hstrip.
    cbn [String.string_of_list_ascii].
    by rewrite String.string_of_list_ascii_of_string.
Qed.

Lemma format_comma_adds_only_commas_witness :
  String.length (format_comma 1124459) =
    (String.length (format_plain 1124459)
     + (String.length (format_plain 1124459) - 1) / 3)%nat.
Proof.
  apply (format_comma_adds_only_commas 1124459). lia.
Defined.

Example format_comma_samples :
  format_comma 365309 = "365,309" /\ format_comma 785 = "785" /\
  format_comma 9720846 = "9,720,846" /\ format_comma (-1234567) = "-1,234,567".
Proof. repeat split; reflexivity. Qed.

Lemma fold_max_bounds (xs : list Z) (x : Z) :
  x <= fold_left Z.max xs x /\
  (forall y, In y xs -> y <= fold_left Z.max xs x) /\
  (fold_left Z.max xs x = x \/ In (fold_left Z.max xs x) xs).
Proof.
  revert x. induction xs as [|z xs IH]; intros x; cbn [fold_left].
  - split; [lia|]. split; [intros y []|by left].
  - destruct (IH (Z.max x z)) as (H1 & H2 & H3). split; [lia|]. split.
    + intros y [<- | Hy]; [lia | by apply H2].
    + destruct H3 as [-> | H3]; [|right; by right].
      destruct (Z.max_spec x z) as [[_ ->] | [_ ->]];
        [right; by left | by left].
Qed.

Lemma fold_min_bounds (xs : list Z) (x : Z) :
  fold_left Z.min xs x <= x /\
  (forall y, In y xs -> fold_left Z.min xs x <= y) /\
  (fold_left Z.min xs x = x \/ In (fold_left Z.min xs x) xs).
Proof.
  revert x. induction xs as [|z xs IH]; intros x; cbn [fold_left].
  - split; [lia|]. split; [intros y []|by left].
  - destruct (IH (Z.min x z)) as (H1 & H2 & H3). split; [lia|]. split.
    + intros y [<- | Hy]; [lia | by apply H2].
    + destruct H3 as [-> | H3]; [|right; by right].
      destruct (Z.min_spec x z) as [[_ ->] | [_ ->]];
        [by left | right; by left].
Qed.

(** X14. For a column with at least one row, the values behind the
    highest and lowest density metrics are entries of the column, and
    every entry lies between them. *)
Theorem series_max_min_bounds (col : list Z) :
  col <> [] ->
  In (series_max col) col /\ In (series_min col) col /\
  forall x, In x col -> series_min col <= x <= series_max col.
Proof.
  destruct col as [|x xs]; [done|]. intros _. unfold series_max, series_min.
  destruct (fold_max_bounds xs x) as (M1 & M2 & M3).
  destruct (fold_min_bounds xs x) as (m1 & m2 & m3).
  split; [|split].
  - destruct M3 as [-> | M3]; [by left | by right].
  - destruct m3 as [-> | m3]; [by left | by right].
  - intros y [<- | Hy]; [lia|]. split; [by apply m2 | by apply M2].
Qed.

Lemma series_max_min_bounds_witness :
  In (series_max (col_density data)) (col_density data) /\
  In (series_min (col_density data)) (col_density data) /\
  forall x, In x (col_density data) ->
            series_min (col_density data) <= x <= series_max (col_density data).
Proof.
  apply (series_max_min_bounds (col_density data)). discriminate.
Defined.

(** ** Reruns show the same page *)

(** X15. In a process started with an empty cache, what a run of [main]
    shows and how it ends depend on the chart selection only, not on how
    many runs came before: a rerun replays the resolver's messages from
    the cache and draws under the same configuration as the first run. *)
Theorem page_depends_on_selection_only
    (host : Host) (s0 : Proc) (choices : list nat) (choice : nat) :
  resource_cache s0 = None ->
  emitted (main host choice (session host choices s0)) =
    emitted (main host choice s0) /\
  result (main host choice (session host choices s0)) =
    result (main host choice s0).
Proof.
  intros Hc.
  assert (forall s, settled host s0 s ->
            exists v els st,
              result (cached_setup_korean_font host s) = Ret v /\
              cached_setup_korean_font host s0 = mkRun (Ret v) st els /\
              cached_setup_korean_font host s = mkRun (Ret v) st els) as Hsame.
  { intros s Hs.
    destruct (settled_cached_setup host s0 Hc s Hs) as (v & Hv & Hrun).
    destruct (settled_cached_setup host s0 Hc s0 (or_introl eq_refl))
      as (v' & Hv' & Hrun0).
    assert (v' = v) as -> by congruence.
    exists v. eexists _, _. rewrite Hrun. split; [done|]. split; [|done].
    exact Hrun0. }
  destruct (Hsame (session host choices s0)) as (v & els & st & Hres & H0 & Hs).
  { apply session_settled; [exact Hc | by left]. }
  assert (result (cached_setup_korean_font host s0) = Ret v) as Hres0
    by (by rewrite H0).
  destruct (main_run host choice _ v Hres) as (_ & ->).
  destruct (main_run host choice s0 v Hres0) as (_ & ->).
  rewrite (main_result host choice _ v Hres).
  rewrite (main_result host choice s0 v Hres0).
  by rewrite Hs, H0.
Qed.

Lemma page_depends_on_selection_only_witness :
  emitted (main linux_host 2 (session linux_host [0%nat; 4%nat] fresh_proc)) =
    emitted (main linux_host 2 fresh_proc) /\
  result (main linux_host 2 (session linux_host [0%nat; 4%nat] fresh_proc)) =
    result (main linux_host 2 fresh_proc).
Proof.
  apply (page_depends_on_selection_only linux_host fresh_proc
           [0%nat; 4%nat] 2).
  reflexivity.
Defined.
